(** * Gaussian-process examples of flax: a shallow embedding

    The two driver scripts of [examples/gaussian_processes] are embedded
    here: [basic_regression2.py] (module [Regression]) and [basic_dgp.py]
    (module [Dgp]).  Arrays are flat row-major buffers with a shape, as
    NumPy and JAX have them; Python exceptions are an error monad; the
    numeric scalar type is an interface, so that every statement holds for
    whatever arithmetic (exact or floating) interprets it. *)

From Stdlib Require Import String DecimalString Bool Arith ZArith QArith Lia List.
Import ListNotations.
Local Open Scope string_scope.
Local Open Scope list_scope.
Local Open Scope nat_scope.
Set Warnings "-abstract-large-number".

(** ** Python exceptions as an error monad *)

Module Py.

Inductive exn : Type :=
| AttributeError (msg : string)
| TypeError (msg : string)
| IndexError (msg : string)
| ValueError (msg : string)
| ShapeError (msg : string)      (* incompatible shapes: TypeError or ValueError by version *)
| Unmodelled (what : string).    (* an input the embedding does not cover *)

Inductive result (A : Type) : Type :=
| Ok (a : A)
| Raise (e : exn).
Arguments Ok {A} a.
Arguments Raise {A} e.

Definition bind {A B} (r : result A) (k : A -> result B) : result B :=
  match r with
  | Ok a => k a
  | Raise e => Raise e
  end.

Definition is_ok {A} (r : result A) : bool :=
  match r with Ok _ => true | Raise _ => false end.

(** [try: body except AttributeError: handler]. *)
Definition try_except_AttributeError {A} (body : result A)
    (handler : string -> result A) : result A :=
  match body with
  | Raise (AttributeError m) => handler m
  | r => r
  end.

(** [for x in xs: st = body(x, st)], stopping at the first exception. *)
Fixpoint for_each {A S} (xs : list A) (body : A -> S -> result S) (st : S)
    : result S :=
  match xs with
  | [] => Ok st
  | x :: xs' => bind (body x st) (for_each xs' body)
  end.

(** [range(a, b)]. *)
Definition range (a b : nat) : list nat := seq a (b - a).

End Py.
Import Py.

Declare Scope py_scope.
Delimit Scope py_scope with py.
Notation "x <- c ;; k" := (Py.bind c (fun x => k))
  (at level 61, c at next level, right associativity) : py_scope.
Notation "' pat <- c ;; k" := (Py.bind c (fun x => match x with pat => k end))
  (at level 61, pat pattern, c at next level, right associativity) : py_scope.
Local Open Scope py_scope.

(** ** Scalars

    The element type of every array.  [lit] reads a decimal literal of the
    source ([1e-4], [-1.5], ...). *)

Class Scalar (F : Type) : Type := {
  zero : F;
  one : F;
  add : F -> F -> F;
  sub : F -> F -> F;
  mul : F -> F -> F;
  div : F -> F -> F;
  neg : F -> F;
  leb : F -> F -> bool;
  of_nat : nat -> F;
  lit : Q -> F
}.

(** ** N-dimensional arrays *)

Record ndarray (F : Type) : Type := mkArr { shape : list nat; data : list F }.
Arguments mkArr {F} shape data.
Arguments shape {F} n.
Arguments data {F} n.

Module Np.
Section Arrays.
Context {F : Type} `{Scalar F}.

(** Number of elements of a shape. *)
Definition size (sh : list nat) : nat := fold_right Nat.mul 1 sh.

(** The buffer has as many elements as the shape says. *)
Definition wf (a : ndarray F) : Prop := length (data a) = size (shape a).

Definition wfb (a : ndarray F) : bool := length (data a) =? size (shape a).

Definition full (sh : list nat) (v : F) : ndarray F := mkArr sh (repeat v (size sh)).

(** [jnp.zeros(shape)], [jnp.ones(shape)]. *)
Definition zeros (sh : list nat) : ndarray F := full sh zero.
Definition ones (sh : list nat) : ndarray F := full sh one.

(** A Python float or a 0-d array. *)
Definition scalar (v : F) : ndarray F := mkArr [] [v].

(** [jnp.array(list_of_floats)]. *)
Definition array (l : list F) : ndarray F := mkArr [length l] l.

(** [x.shape[:-1]]. *)
Definition shape_init (a : ndarray F) : list nat := removelast (shape a).

(** [x.shape[-1]]. *)
Definition shape_last (a : ndarray F) : result nat :=
  match rev (shape a) with
  | [] => Raise (IndexError "tuple index out of range")
  | n :: _ => Ok n
  end.

(** Every [d]-th element of a buffer, starting [k] elements in. *)
Fixpoint stride (d k : nat) (l : list F) : list F :=
  match l with
  | [] => []
  | x :: t =>
      match k with
      | 0 => x :: stride d (d - 1) t
      | S k' => stride d k' t
      end
  end.

(** [x[..., 0]]. *)
Definition index_last0 (a : ndarray F) : result (ndarray F) :=
  match rev (shape a) with
  | [] => Raise (IndexError "too many indices for array")
  | 0 :: _ => Raise (IndexError "index 0 is out of bounds for axis with size 0")
  | S d :: _ => Ok (mkArr (removelast (shape a)) (stride (S d) 0 (data a)))
  end.

(** [x[..., None]]. *)
Definition expand_last (a : ndarray F) : ndarray F :=
  mkArr (shape a ++ [1]) (data a).

(** *** Broadcasting *)

Fixpoint bshape_rev (r1 r2 : list nat) : option (list nat) :=
  match r1, r2 with
  | [], r => Some r
  | r, [] => Some r
  | a :: t1, b :: t2 =>
      match bshape_rev t1 t2 with
      | None => None
      | Some t =>
          if a =? b then Some (a :: t)
          else if a =? 1 then Some (b :: t)
          else if b =? 1 then Some (a :: t)
          else None
      end
  end.

(** [np.broadcast_shapes]: shapes are aligned on their last axis. *)
Definition broadcast_shapes (s1 s2 : list nat) : option (list nat) :=
  option_map (@rev nat) (bshape_rev (rev s1) (rev s2)).

(** A shape padded on the left with 1s up to rank [r]. *)
Definition pad (r : nat) (sh : list nat) : list nat :=
  repeat 1 (r - length sh) ++ sh.

(** [k] consecutive pieces of [m] elements. *)
Fixpoint chunks (k m : nat) (l : list F) : list (list F) :=
  match k with
  | 0 => []
  | S k' => firstn m l :: chunks k' m (skipn m l)
  end.

(** The buffer of an array of shape [src] stretched to shape [tgt] (same
    rank, every axis of [src] equal to that of [tgt] or 1). *)
Fixpoint bcast (src tgt : list nat) (d : list F) : list F :=
  match src, tgt with
  | s :: ss, t :: ts =>
      if s =? t
      then concat (map (bcast ss ts) (chunks s (size ss) d))
      else concat (repeat (bcast ss ts d) t)
  | _, _ => d
  end.

Definition shape_eqb (s1 s2 : list nat) : bool :=
  if list_eq_dec Nat.eq_dec s1 s2 then true else false.

(** [jnp.broadcast_to(a, tgt)]. *)
Definition broadcast_to (a : ndarray F) (tgt : list nat) : result (ndarray F) :=
  match broadcast_shapes (shape a) tgt with
  | Some sh =>
      if shape_eqb sh tgt
      then Ok (mkArr tgt (bcast (pad (length tgt) (shape a)) tgt (data a)))
      else Raise (ShapeError "cannot broadcast to the requested shape")
  | None => Raise (ShapeError "cannot broadcast to the requested shape")
  end.

Fixpoint zip_with (f : F -> F -> F) (l1 l2 : list F) : list F :=
  match l1, l2 with
  | x :: t1, y :: t2 => f x y :: zip_with f t1 t2
  | _, _ => []
  end.

(** An elementwise binary operator with NumPy broadcasting. *)
Definition broadcast2 (f : F -> F -> F) (a b : ndarray F) : result (ndarray F) :=
  match broadcast_shapes (shape a) (shape b) with
  | Some sh =>
      Ok (mkArr sh (zip_with f
            (bcast (pad (length sh) (shape a)) sh (data a))
            (bcast (pad (length sh) (shape b)) sh (data b))))
  | None => Raise (ShapeError "operands could not be broadcast together")
  end.

(** [a + b], [a * b], [-a], [a ** 2]. *)
Definition np_add : ndarray F -> ndarray F -> result (ndarray F) := broadcast2 add.
Definition np_mul : ndarray F -> ndarray F -> result (ndarray F) := broadcast2 mul.
Definition np_map (f : F -> F) (a : ndarray F) : ndarray F :=
  mkArr (shape a) (map f (data a)).
Definition np_neg : ndarray F -> ndarray F := np_map neg.
Definition np_square : ndarray F -> ndarray F := np_map (fun v => mul v v).

(** [jnp.sum([a1, ..., ak])]: the list is stacked (equal shapes are
    required) and every element is added up. *)
Definition np_sum_list (xs : list (ndarray F)) : result (ndarray F) :=
  match xs with
  | [] => Ok (scalar zero)
  | x :: _ =>
      if forallb (fun y => shape_eqb (shape y) (shape x)) xs
      then Ok (scalar (fold_left add (flat_map (fun y => data y) xs) zero))
      else Raise (ValueError "setting an array element with a sequence")
  end.

(** *** Indexing *)

(** Offset of a (possibly partial) multi-index in a row-major buffer;
    [None] when a coordinate is out of range or there are too many. *)
Fixpoint ravel (sh ix : list nat) : option nat :=
  match ix, sh with
  | [], _ => Some 0
  | _ :: _, [] => None
  | i :: ix', n :: sh' =>
      if i <? n
      then option_map (fun r => i * size sh' + r) (ravel sh' ix')
      else None
  end.

Fixpoint unravel (sh : list nat) (k : nat) : list nat :=
  match sh with
  | [] => []
  | _ :: sh' => (k / size sh') :: unravel sh' (k mod size sh')
  end.

(** Element [(i, j)] of a matrix. *)
Definition get2 (a : ndarray F) (i j : nat) : F :=
  match shape a with
  | [_; c] => nth (i * c + j) (data a) zero
  | _ => zero
  end.

(** [jnp.diag_indices(n, ndim)]: [ndim] copies of [arange(n)]. *)
Definition diag_indices (n ndim : nat) : list (list nat) :=
  repeat (seq 0 n) ndim.

(** [jnp.diag(a)]: the diagonal of a matrix, or the diagonal matrix of a
    vector. *)
Definition diag (a : ndarray F) : result (ndarray F) :=
  match shape a with
  | [r; c] =>
      Ok (mkArr [Nat.min r c]
            (map (fun k => nth (k * c + k) (data a) zero) (seq 0 (Nat.min r c))))
  | [n] =>
      Ok (mkArr [n; n]
            (flat_map (fun i =>
               map (fun j => if i =? j then nth i (data a) zero else zero) (seq 0 n))
               (seq 0 n)))
  | _ => Raise (ValueError "diag input must be 1d or 2d")
  end.

(** The buffer [d] with the piece [blk] written at offset [off]. *)
Definition splice (off : nat) (blk d : list F) : list F :=
  firstn off d ++ blk ++ skipn (off + length blk) d.

Definition scatter_step (sh : list nat) (d : list F) (pb : list nat * list F)
    : list F :=
  match ravel sh (fst pb) with
  | Some off => splice off (snd pb) d
  | None => d                      (* an out-of-range update is dropped *)
  end.

(** [jax.ops.index_update(a, idx, vals)] for a tuple [idx] of integer index
    arrays: the pure form of [a[idx] = vals].  The result is a new array;
    [a] is an operand, never a destination. *)
Definition index_update (a : ndarray F) (idx : list (list nat)) (vals : ndarray F)
    : result (ndarray F) :=
  let k := length idx in
  if length (shape a) <? k then Raise (IndexError "too many indices for array")
  else
    let n := length (hd [] idx) in
    if negb (forallb (fun ix => length ix =? n) idx)
    then Raise (ShapeError "index arrays of different lengths")
    else
      let tail := skipn k (shape a) in
      let tgt := match idx with [] => tail | _ => n :: tail end in
      v <- broadcast_to vals tgt ;;
      let blocks := match idx with
                    | [] => [data v]
                    | _ => chunks n (size tail) (data v)
                    end in
      let points := match idx with
                    | [] => [[]]
                    | _ => map (fun j => map (fun ix => nth j ix 0) idx) (seq 0 n)
                    end in
      Ok (mkArr (shape a)
            (fold_left (scatter_step (shape a)) (combine points blocks) (data a))).

(** [a.T]: the axes reversed. *)
Definition transpose (a : ndarray F) : ndarray F :=
  let sh' := rev (shape a) in
  mkArr sh'
    (map (fun k =>
            match ravel (shape a) (rev (unravel sh' k)) with
            | Some off => nth off (data a) zero
            | None => zero
            end)
         (seq 0 (size sh'))).

(** [a @ b] for two matrices. *)
Definition matmul (a b : ndarray F) : result (ndarray F) :=
  match shape a, shape b with
  | [r; k], [k'; c] =>
      if k =? k'
      then Ok (mkArr [r; c]
             (flat_map (fun i =>
                map (fun j =>
                       fold_left add
                         (map (fun l => mul (nth (i * k + l) (data a) zero)
                                            (nth (l * c + j) (data b) zero))
                              (seq 0 k))
                         zero)
                    (seq 0 c))
                (seq 0 r)))
      else Raise (ShapeError "matmul: inner dimensions differ")
  | _, _ => Raise (Unmodelled "matmul of operands that are not both matrices")
  end.

(** [jnp.linspace(start, stop, num)]. *)
Definition linspace (start stop : F) (num : nat) : ndarray F :=
  let step := div (sub stop start) (of_nat (num - 1)) in
  array (map (fun i => add start (mul (of_nat i) step)) (seq 0 num)).

(** *** Flattening, splitting and joining *)

(** [a.ravel()]. *)
Definition ravel_all (a : ndarray F) : ndarray F :=
  mkArr [size (shape a)] (data a).

(** [a.reshape(sh)]. *)
Definition reshape (a : ndarray F) (sh : list nat) : result (ndarray F) :=
  if size sh =? size (shape a) then Ok (mkArr sh (data a))
  else Raise (ShapeError "cannot reshape array").

(** [jnp.cumsum] of a list of sizes. *)
Fixpoint cumsum_from (acc : nat) (l : list nat) : list nat :=
  match l with
  | [] => []
  | x :: t => (acc + x) :: cumsum_from (acc + x) t
  end.

Definition cumsum (l : list nat) : list nat := cumsum_from 0 l.

(** Rows [lo, hi) of a buffer whose rows have shape [tail]. *)
Definition slice_rows (tail : list nat) (d : list F) (lo hi : nat) : ndarray F :=
  mkArr ((hi - lo) :: tail)
    (firstn ((hi - lo) * size tail) (skipn (lo * size tail) d)).

(** [jnp.split(a, indices)] along the first axis: the pieces between
    consecutive indices, from 0 to the length of the axis; a limit that is
    out of order or out of range is refused by [lax.slice]. *)
Fixpoint split_from (tail : list nat) (n : nat) (d : list F) (start : nat)
    (indices : list nat) : result (list (ndarray F)) :=
  match indices with
  | [] => Ok [slice_rows tail d start n]
  | i :: rest =>
      if (start <=? i) && (i <=? n)
      then ps <- split_from tail n d i rest ;; Ok (slice_rows tail d start i :: ps)
      else Raise (TypeError "slice limits must be in order and within the operand")
  end.

Definition split (a : ndarray F) (indices : list nat) : result (list (ndarray F)) :=
  match shape a with
  | [] => Raise (IndexError "tuple index out of range")
  | n :: tail => split_from tail n (data a) 0 indices
  end.

(** [jnp.concatenate(xs)] along the first axis. *)
Definition concatenate (xs : list (ndarray F)) : result (ndarray F) :=
  match xs with
  | [] => Raise (ValueError "need at least one array to concatenate")
  | x :: _ =>
      match shape x with
      | [] => Raise (ValueError "zero-dimensional arrays cannot be concatenated")
      | _ :: tail =>
          if forallb (fun y => match shape y with
                               | [] => false
                               | _ :: t => shape_eqb t tail
                               end) xs
          then Ok (mkArr (list_sum (map (fun y => hd 0 (shape y)) xs) :: tail)
                     (flat_map (fun y => data y) xs))
          else Raise (ShapeError "concatenate: array dimensions differ")
      end
  end.

(** A one-axis array on a buffer. *)
Definition vec (d : list F) : ndarray F := mkArr [length d] d.

(** [[f(x) for x in xs]] with a body that can raise. *)
Fixpoint map_result {A B : Type} (f : A -> result B) (xs : list A)
    : result (list B) :=
  match xs with
  | [] => Ok []
  | x :: t => y <- f x ;; ys <- map_result f t ;; Ok (y :: ys)
  end.

(** [x[:, 0]]. *)
Definition index_axis1_0 (a : ndarray F) : result (ndarray F) :=
  match shape a with
  | n :: m :: tail =>
      if m =? 0
      then Raise (IndexError "index 0 is out of bounds for axis with size 0")
      else Ok (mkArr (n :: tail)
                 (flat_map (firstn (size tail)) (chunks n (m * size tail) (data a))))
  | _ => Raise (IndexError "too many indices for array")
  end.

End Arrays.
End Np.

(** ** Collaborators outside the two scripts *)

(** [jax.nn.softplus] (on one element) and [jnp.linalg.cholesky]. *)
Class JaxNumeric (F : Type) : Type := {
  softplus : F -> F;
  cholesky : ndarray F -> ndarray F
}.

(** [jax.random]: keys are opaque values. *)
Class JaxRandom (F key : Type) : Type := {
  PRNGKey : Z -> key;
  split : key -> key * key;
  normal : key -> list nat -> ndarray F
}.

(** A parameter initializer: [(key, shape) -> array]. *)
Definition initializer (F key : Type) : Type := key -> list nat -> ndarray F.

(** Values that travel in the per-layer keyword dictionaries. *)
Inductive kwval (F key : Type) : Type :=
| KwBool (b : bool)
| KwNat (n : nat)
| KwStr (s : string)
| KwInit (f : initializer F key).
Arguments KwBool {F key} b.
Arguments KwNat {F key} n.
Arguments KwStr {F key} s.
Arguments KwInit {F key} f.

Definition kwdict (F key : Type) : Type := list (string * kwval F key).

(** [flax.nn.Module]: a module instance owns a parameter scope; [param]
    reads (or, when initialising, creates) a named parameter and [child]
    is the scope of a named submodule. *)
Class FlaxModule (F key scope : Type) : Type := {
  param : scope -> string -> list nat -> initializer F key -> ndarray F;
  child : scope -> string -> scope
}.

(** The [kernels] module: a provider builds a kernel function, which is
    called on index points. *)
Class Kernels (F key scope kernel : Type) : Type := {
  RBFKernelProvider : scope -> ndarray F -> kwdict F key -> result kernel;
  kernel_call : kernel -> ndarray F -> result (ndarray F)
}.

(** Modelled from the spec: the [distributions] module is not among the
    sources; section 3 gives its three variants, each a mean with a
    diagonal scale, a lower-triangular scale or a full covariance. *)
Module distributions.

Record MultivariateNormalDiag (F : Type) : Type :=
  mkDiag { diag_mean : ndarray F; scale_diag : ndarray F }.
Record MultivariateNormalTriL (F : Type) : Type :=
  mkTriL { tril_mean : ndarray F; tril_scale : ndarray F }.
Record MultivariateNormalFull (F : Type) : Type :=
  mkFull { full_mean : ndarray F; full_covariance : ndarray F }.

Arguments mkDiag {F}.
Arguments diag_mean {F}.
Arguments scale_diag {F}.
Arguments mkTriL {F}.
Arguments tril_mean {F}.
Arguments tril_scale {F}.
Arguments mkFull {F}.
Arguments full_mean {F}.
Arguments full_covariance {F}.

Inductive MultivariateNormal (F : Type) : Type :=
| Diag (d : MultivariateNormalDiag F)
| TriL (d : MultivariateNormalTriL F)
| Full (d : MultivariateNormalFull F).
Arguments Diag {F} d.
Arguments TriL {F} d.
Arguments Full {F} d.

End distributions.
Import distributions.

(** A Python object seen through its attributes: what duck typing can
    observe.  [is_dataclass] tells whether the object has [replace]. *)
Record pyobj (F : Type) : Type :=
  mkObj { cls : string; fields : list (string * ndarray F); is_dataclass : bool }.
Arguments mkObj {F}.
Arguments cls {F}.
Arguments fields {F}.
Arguments is_dataclass {F}.

(** ['{}'.format(p)]. *)
Class PyFormat (F : Type) : Type := { str_of : pyobj F -> string }.

(** [jax.tree_util]: a parameter tree is flattened into its leaves and
    a tree definition, and rebuilt from them. *)
Class JaxTree (F params treedef : Type) : Type := {
  tree_flatten : params -> list (ndarray F) * treedef;
  tree_unflatten : treedef -> list (ndarray F) -> params
}.

(** [jnp.sin] on one element. *)
Class JaxMath (F : Type) : Type := { sin : F -> F }.

(** ** basic_regression2.py *)

Module Regression.
Section Model.
Context {F key scope kernel : Type}.
Context `{Scalar F} `{JaxNumeric F} `{PyFormat F}.
Context `{FlaxModule F key scope} `{Kernels F key scope kernel}.

(** Shifts the diagonal of [mat] by [val]. *)
Definition _diag_shift (mat val : ndarray F) : result (ndarray F) :=
  n <- Np.shape_last mat ;;
  d <- Np.diag mat ;;
  v <- Np.np_add d val ;;
  Np.index_update mat (Np.diag_indices n (length (shape mat))) v.

(** Python names hold references to immutable device buffers: an operation
    reads its operands in the store and allocates its result. *)
Definition store : Type := list (ndarray F).

Definition _diag_shift_ref (s : store) (mat : nat) (val : ndarray F)
    : result (nat * store) :=
  match nth_error s mat with
  | None => Raise (Unmodelled "dangling reference")
  | Some m => r <- _diag_shift m val ;; Ok (length s, s ++ [r])
  end.

(** Attribute lookup [p.name]. *)
Definition getattr (p : pyobj F) (name : string) : result (ndarray F) :=
  match find (fun kv => String.eqb (fst kv) name) (fields p) with
  | Some kv => Ok (snd kv)
  | None => Raise (AttributeError
              ("'" ++ cls p ++ "' object has no attribute '" ++ name ++ "'")%string)
  end.

(** Lookup of the bound method [p.replace]. *)
Definition get_replace (p : pyobj F) : result unit :=
  if is_dataclass p then Ok tt
  else Raise (AttributeError
         ("'" ++ cls p ++ "' object has no attribute 'replace'")%string).

(** [dataclasses.replace(p, name=v)]: a new object of the same class. *)
Definition replace (p : pyobj F) (name : string) (v : ndarray F) : result (pyobj F) :=
  if existsb (fun kv => String.eqb (fst kv) name) (fields p)
  then Ok (mkObj (cls p)
             (map (fun kv => if String.eqb (fst kv) name then (name, v) else kv)
                  (fields p))
             (is_dataclass p))
  else Raise (TypeError "__init__() got an unexpected keyword argument").

(** [MeanShiftDistribution.apply]: shift the mean of [p] by [shift]. *)
Definition MeanShiftDistribution_apply (p : pyobj F) (shift : ndarray F)
    : result (pyobj F) :=
  try_except_AttributeError
    (_ <- get_replace p ;;
     m <- getattr p "mean" ;;
     s <- Np.np_add m shift ;;
     replace p "mean" s)
    (fun _ => Raise (AttributeError
                (str_of p ++ " must have a `mean` field.")%string)).

(** The default of the [jitter] argument. *)
Definition default_jitter : F := lit (1 # 10000).

(** [GaussianProcessLayer.apply]. *)
Definition GaussianProcessLayer_apply (index_points : ndarray F)
    (kernel_fun : ndarray F -> result (ndarray F))
    (mean_fun : option (ndarray F -> result (ndarray F)))
    (jitter : F) : result (MultivariateNormalTriL F) :=
  let mean_fun :=
    match mean_fun with
    | None => fun x => Ok (Np.zeros (Np.shape_init x))
    | Some f => f
    end in
  mean <- mean_fun index_points ;;
  cov <- kernel_fun index_points ;;
  cov <- _diag_shift cov (Np.scalar jitter) ;;
  Ok (mkTriL mean (cholesky cov)).

(** [jax.nn.initializers.ones]. *)
Definition initializers_ones : initializer F key := fun _ sh => Np.ones sh.

(** [MarginalObservationModel.apply]. *)
Definition MarginalObservationModel_apply (self : scope)
    (pf : MultivariateNormalTriL F) : result (MultivariateNormalFull F) :=
  let obs_noise_scale :=
    Np.np_map softplus (param self "observation_noise_scale" [] initializers_ones) in
  covariance <- Np.matmul (tril_scale pf) (Np.transpose (tril_scale pf)) ;;
  covariance <- _diag_shift covariance (Np.np_square obs_noise_scale) ;;
  Ok (mkFull (tril_mean pf) covariance).

(** [GPModel.apply]. *)
Definition GPModel_apply (self : scope) (x : ndarray F)
    : result (MultivariateNormalFull F) :=
  kern_fun <- RBFKernelProvider self x [("name", KwStr "kernel_fun")] ;;
  pf_x <- GaussianProcessLayer_apply x (kernel_call kern_fun) None default_jitter ;;
  MarginalObservationModel_apply (child self "observation_model") pf_x.

End Model.

(** *** Packing parameters for the scipy optimizers, and the data *)

Section Packing.
Context {F key params treedef : Type}.
Context `{Scalar F} `{JaxTree F params treedef} `{JaxRandom F key} `{JaxMath F}.

(** [build_par_pack_and_unpack(model)], on [model.params]: the pair
    [(par_from_array, array_from_par)]. *)
Definition build_par_pack_and_unpack (model_params : params)
    : (ndarray F -> result params) * (params -> result (ndarray F)) :=
  let '(value_flat, value_tree) := tree_flatten model_params in
  let section_shapes := map (fun item => shape item) value_flat in
  let section_sizes :=
    Np.cumsum (map (fun item => Np.size (shape item)) value_flat) in
  let par_from_array := fun arr =>
    value_flat <- Np.split arr section_sizes ;;
    value_flat <- Np.map_result (fun xs => Np.reshape (fst xs) (snd xs))
                    (combine value_flat section_shapes) ;;
    Ok (tree_unflatten value_tree value_flat) in
  let array_from_par := fun prm =>
    let '(value_flat, _) := tree_flatten prm in
    Np.concatenate (map Np.ravel_all value_flat) in
  (par_from_array, array_from_par).

(** A data set: [{'index_points': ..., 'y': ...}]. *)
Record dataset : Type := mkDataset {
  ds_index_points : ndarray F;
  ds_y : ndarray F
}.

(** The default of [true_obs_noise_scale]. *)
Definition default_true_obs_noise_scale : F := lit (5 # 10).

(** [get_datasets(sim_key, true_obs_noise_scale)]. *)
Definition get_datasets (sim_key : key) (true_obs_noise_scale : F) : result dataset :=
  let index_points := Np.expand_last (Np.linspace (lit (- 3)) (lit 3) 25) in
  col <- Np.index_axis1_0 index_points ;;
  y <- Np.np_add (Np.np_map sin col)
         (Np.np_map (mul true_obs_noise_scale)
            (normal sim_key (Np.shape_init index_points))) ;;
  Ok (mkDataset index_points y).

End Packing.
End Regression.

(** ** basic_dgp.py *)

(** The [inducing_variables] module. *)
Class InducingVariables (F key scope kernel inducing : Type) : Type := {
  InducingPointsProvider :
    scope -> ndarray F -> kernel -> kwdict F key -> result inducing
}.

(** Modelled from the spec: [gaussian_processes.SVGPProvider] is not among
    the sources; section 3 describes the state of a GP layer as its kernel,
    its inducing set and its mean function.  The layer object keeps them,
    with the index points and the name it was built with. *)
Record SVGP (F kernel inducing : Type) : Type := mkSVGP {
  svgp_index_points : ndarray F;
  svgp_mean_fun : ndarray F -> result (ndarray F);
  svgp_kernel_fun : kernel;
  svgp_inducing_var : inducing;
  svgp_name : string
}.
Arguments mkSVGP {F kernel inducing}.
Arguments svgp_index_points {F kernel inducing}.
Arguments svgp_mean_fun {F kernel inducing}.
Arguments svgp_kernel_fun {F kernel inducing}.
Arguments svgp_inducing_var {F kernel inducing}.
Arguments svgp_name {F kernel inducing}.

(** The methods of a layer object ([gaussian_processes]) and of a
    distribution ([distributions]). *)
Class GaussianProcesses (F key kernel inducing : Type) : Type := {
  marginal : SVGP F kernel inducing -> result (MultivariateNormal F);
  prior_kl : SVGP F kernel inducing -> result (ndarray F);
  sample : MultivariateNormal F -> key -> list nat -> result (ndarray F);
  log_prob : MultivariateNormal F -> ndarray F -> result (ndarray F)
}.

(** [flax.nn.stochastic] and [flax.nn.make_rng]: a frame is opened on a
    key and hands out keys; [Module.init_by_shape] runs a module's [apply]
    on inputs of the given shapes and returns its output with the
    parameters it created. *)
Class FlaxStochastic (F key scope frame : Type) : Type := {
  new_frame : key -> frame;
  frame_make_rng : frame -> key * frame;
  init_by_shape :
    forall out : Type,
      (scope -> list (ndarray F) -> result out) ->
      key -> list (list nat) -> result (out * scope)
}.
Arguments init_by_shape {F key scope frame _ out}.

(** [jax.value_and_grad] and [flax.optim]. *)
Class Training (F scope optimizer grads : Type) : Type := {
  value_and_grad :
    (scope -> result (ndarray F)) -> scope -> result (ndarray F * grads);
  Adam_create : F -> F -> scope -> optimizer;
  target : optimizer -> scope;
  apply_gradient : optimizer -> grads -> optimizer
}.

Module Dgp.

(** The command-line flags, as an explicit record. *)
Record FLAGS (F : Type) : Type := mkFlags {
  learning_rate : F;
  num_epochs : nat;
  plot : bool;
  num_inducing_points : nat
}.
Arguments mkFlags {F}.
Arguments learning_rate {F}.
Arguments num_epochs {F}.
Arguments plot {F}.
Arguments num_inducing_points {F}.

(** A data set: [{'index_points': ..., 'y': ...}]. *)
Record dataset (F : Type) : Type := mkDataset {
  ds_index_points : ndarray F;
  ds_y : ndarray F
}.
Arguments mkDataset {F}.
Arguments ds_index_points {F}.
Arguments ds_y {F}.

Section Model.
Context {F key scope kernel inducing : Type}.
Context `{Scalar F} `{JaxNumeric F}.
Context `{FlaxModule F key scope} `{Kernels F key scope kernel}.
Context `{InducingVariables F key scope kernel inducing}.
Context `{GaussianProcesses F key kernel inducing}.


(** [str(n)] for a layer number. *)
Definition format_nat (n : nat) : string := NilEmpty.string_of_uint (Nat.to_uint n).

(** A dictionary with insertion order: [d[k] = v] and [d.get(k, default)]. *)
Fixpoint dict_set {K V} (eqb : K -> K -> bool) (d : list (K * V)) (k : K) (v : V)
    : list (K * V) :=
  match d with
  | [] => [(k, v)]
  | (k', v') :: d' => if eqb k' k then (k, v) :: d' else (k', v') :: dict_set eqb d' k v
  end.

Definition dict_get {K V} (eqb : K -> K -> bool) (d : list (K * V)) (k : K)
    : option V :=
  option_map snd (find (fun kv => eqb (fst kv) k) d).

Definition kwargs_get (kwargs : list (string * kwdict F key)) (name : string)
    : kwdict F key :=
  match dict_get String.eqb kwargs name with
  | Some d => d
  | None => []
  end.

(** A call [f(..., k1=v1, ..., **extra)]: a keyword given twice is a
    [TypeError] at the call site. *)
Definition call_kwargs (explicit extra : kwdict F key) : result (kwdict F key) :=
  match find (fun kv => existsb (String.eqb (fst kv)) (map fst explicit)) extra with
  | Some kv => Raise (TypeError
                 ("got multiple values for keyword argument '" ++ fst kv ++ "'")%string)
  | None => Ok (explicit ++ extra)
  end.

(** [lambda key, shape: 1.0e-2*jnp.ones([1])]. *)
Definition observation_noise_scale_init : initializer F key :=
  fun _ _ => Np.np_map (mul (lit (1 # 100))) (Np.ones [1]).

(** [LikelihoodProvider.apply]. *)
Definition LikelihoodProvider_apply (self : scope) (x : ndarray F)
    : result (MultivariateNormalDiag F) :=
  let obs_noise_scale :=
    Np.np_map softplus
      (param self "observation_noise_scale" [1] observation_noise_scale_init) in
  mean <- Np.index_last0 x ;;
  scale_diag <- Np.np_mul (Np.ones (Np.shape_init x)) obs_noise_scale ;;
  Ok (mkDiag mean scale_diag).

(** The variables that the layer loop of [DeepGPModel.apply] carries. *)
Record loop_state : Type := mkLoop {
  loop_x : ndarray F;
  loop_mf : ndarray F -> result (ndarray F);
  loop_vgps : list (nat * SVGP F kernel inducing)
}.

(** [lambda x_: jnp.zeros(x_.shape[:-1])] and [lambda x_: x_[..., 0]]. *)
Definition initial_mean_fun : ndarray F -> result (ndarray F) :=
  fun x_ => Ok (Np.zeros (Np.shape_init x_)).
Definition later_mean_fun : ndarray F -> result (ndarray F) :=
  fun x_ => Np.index_last0 x_.

(** The sample shape of the reparameterised draw. *)
Definition sample_shape : list nat := [17].

(** The body of [for layer in range(1, 3)]. *)
Definition layer_body (self : scope) (flags : FLAGS F) (sample_key : key)
    (kwargs : list (string * kwdict F key)) (layer : nat) (st : loop_state)
    : result loop_state :=
  let x := loop_x st in
  let mf := loop_mf st in
  let n := format_nat layer in
  kw <- call_kwargs [("name", KwStr ("kernel_fun_" ++ n)%string)]
          (kwargs_get kwargs ("kernel_fun_" ++ n ++ "_kwargs")%string) ;;
  kf <- RBFKernelProvider self x kw ;;
  kw <- call_kwargs [("name", KwStr ("inducing_var_" ++ n)%string);
                     ("num_inducing_points", KwNat (num_inducing_points flags));
                     ("fixed_locations", KwBool true)]
          (kwargs_get kwargs ("inducing_var_" ++ n ++ "_kwargs")%string) ;;
  inducing_var <- InducingPointsProvider self x kf kw ;;
  let vgp := mkSVGP x mf kf inducing_var ("vgp_" ++ n)%string in
  m <- marginal vgp ;;
  s <- sample m sample_key sample_shape ;;
  Ok (mkLoop (Np.expand_last s) later_mean_fun
        (dict_set Nat.eqb (loop_vgps st) layer vgp)).

(** [DeepGPModel.apply]. *)
Definition DeepGPModel_apply (self : scope) (flags : FLAGS F) (x : ndarray F)
    (sample_key : key) (kwargs : list (string * kwdict F key))
    : result (MultivariateNormalDiag F * list (nat * SVGP F kernel inducing)) :=
  st <- for_each (range 1 3) (layer_body self flags sample_key kwargs)
          (mkLoop x initial_mean_fun []) ;;
  loglik <- LikelihoodProvider_apply (child self "loglik") (loop_x st) ;;
  Ok (loglik, loop_vgps st).

(** [inducing_loc_init] of [create_model]. *)
Definition inducing_loc_init (flags : FLAGS F) : initializer F key :=
  fun _ _ =>
    Np.expand_last
      (Np.linspace (lit (- 15 # 10)) (lit (15 # 10)) (num_inducing_points flags)).

(** The keyword dictionary that [create_model] builds. *)
Definition create_model_kwargs (flags : FLAGS F) : list (string * kwdict F key) :=
  fold_left
    (fun kwargs i =>
       let kwargs :=
         dict_set String.eqb kwargs ("kernel_fun_" ++ format_nat i ++ "_kwargs")%string
           [("amplitude_init",
             KwInit (fun _ sh => Np.np_map (mul (lit 1)) (Np.ones sh)));
            ("length_scale_init",
             KwInit (fun _ sh => Np.np_map (mul (lit 1)) (Np.ones sh)))] in
       dict_set String.eqb kwargs ("inducing_var_" ++ format_nat i ++ "_kwargs")%string
         [("fixed_locations", KwBool true);
          ("inducing_locations_init", KwInit (inducing_loc_init flags))])
    (range 1 3) [].

(** The loss of [train_step]: [loss_fn(model)]. *)
Definition loss_fn (flags : FLAGS F) (batch : dataset F) (sample_key : key)
    (model : scope) : result (ndarray F) :=
  '(ell, vgps) <- DeepGPModel_apply model flags (ds_index_points batch) sample_key [] ;;
  kls <- for_each vgps
           (fun item acc => kl <- prior_kl (snd item) ;; Ok (acc ++ [kl])) [] ;;
  prior_kl_sum <- Np.np_sum_list kls ;;
  lp <- log_prob (Diag ell) (ds_y batch) ;;
  Np.np_add (Np.np_neg lp) prior_kl_sum.

End Model.

(** *** Training

    The training loop runs inside [nn.stochastic] frames, which flax keeps
    on a process-wide stack, and reports each epoch's loss through
    [logging.info]: both are the state of the monad [M]. *)

(** The process state that training touches: the stack of open
    [nn.stochastic] frames and the lines written by [logging.info]. *)
Record world (F frame : Type) : Type := mkWorld {
  prng_stack : list frame;
  log : list (nat * ndarray F)
}.
Arguments mkWorld {F frame}.
Arguments prng_stack {F frame}.
Arguments log {F frame}.

Section Train.
Context {F key scope kernel inducing frame optimizer grads : Type}.
Context `{Scalar F} `{JaxNumeric F} `{JaxRandom F key}.
Context `{FlaxModule F key scope} `{Kernels F key scope kernel}.
Context `{InducingVariables F key scope kernel inducing}.
Context `{GaussianProcesses F key kernel inducing}.
Context `{FlaxStochastic F key scope frame}.
Context `{Training F scope optimizer grads}.

Definition M (A : Type) : Type := world F frame -> result (A * world F frame).

Definition ret {A} (a : A) : M A := fun w => Ok (a, w).

Definition bindM {A B} (c : M A) (k : A -> M B) : M B :=
  fun w => Py.bind (c w) (fun aw => k (fst aw) (snd aw)).

Definition lift {A} (r : result A) : M A :=
  fun w => Py.bind r (fun a => Ok (a, w)).

Fixpoint for_eachM {A S} (xs : list A) (body : A -> S -> M S) (st : S) : M S :=
  match xs with
  | [] => ret st
  | x :: xs' => bindM (body x st) (for_eachM xs' body)
  end.

(** [with nn.stochastic(rng): body]. *)
Definition stochastic {A} (rng : key) (body : M A) : M A :=
  fun w =>
    Py.bind (body (mkWorld (new_frame rng :: prng_stack w) (log w)))
      (fun aw => Ok (fst aw, mkWorld (tl (prng_stack (snd aw))) (log (snd aw)))).

(** [nn.make_rng()]: a key from the innermost frame. *)
Definition make_rng : M key :=
  fun w =>
    match prng_stack w with
    | [] => Raise (ValueError "Use the flax.nn.stochastic context manager")
    | f :: st =>
        let kf := frame_make_rng f in
        Ok (fst kf, mkWorld (snd kf :: st) (log w))
    end.

(** [logging.info('train epoch: %d, loss: %.4f', epoch, loss)]. *)
Definition logging_info (epoch : nat) (loss : ndarray F) : M unit :=
  fun w => Ok (tt, mkWorld (prng_stack w) (log w ++ [(epoch, loss)])).

Variable flags : FLAGS F.

(** What [DeepGPModel.init_by_shape(key, specs, sample_key, **kwargs)] has
    the module run: [apply(x, sample_key, **kwargs)] on the one input. *)
Definition init_apply (sample_key : key) (kwargs : list (string * kwdict F key))
    (self : scope) (inputs : list (ndarray F))
    : result (MultivariateNormalDiag F * list (nat * SVGP F kernel inducing)) :=
  match inputs with
  | [x] => DeepGPModel_apply self flags x sample_key kwargs
  | _ => Raise (TypeError "apply() takes one input")
  end.

(** [create_model(key, input_shape)]. *)
Definition create_model (rng : key) (input_shape : list nat) : M scope :=
  let kwargs := create_model_kwargs flags in
  stochastic rng
    (bindM make_rng (fun sample_key =>
     bindM (lift (init_by_shape (init_apply sample_key kwargs) rng [input_shape]))
       (fun out_params => ret (snd out_params)))).

(** [create_optimizer(model, learning_rate, beta1)]. *)
Definition create_optimizer (model : scope) (learning_rate beta1 : F) : optimizer :=
  Adam_create learning_rate beta1 model.

(** [train_step(optimizer, batch, sample_key)]: the new optimizer and the
    metric [loss]. *)
Definition train_step (opt : optimizer) (batch : dataset F) (sample_key : key)
    : result (optimizer * ndarray F) :=
  '(loss, grad) <- value_and_grad (loss_fn flags batch sample_key) (target opt) ;;
  let opt := apply_gradient opt grad in
  Ok (opt, loss).

(** [train_epoch(optimizer, train_ds, epoch, sample_key)]. *)
Definition train_epoch (opt : optimizer) (train_ds : dataset F) (epoch : nat)
    (sample_key : key) : M (optimizer * ndarray F) :=
  bindM (lift (train_step opt train_ds sample_key)) (fun om =>
  bindM (logging_info epoch (snd om)) (fun _ =>
  ret om)).

(** The body of [for epoch in range(1, num_epochs + 1)]. *)
Definition epoch_body (train_ds : dataset F) (epoch : nat) (st : optimizer * key)
    : M (optimizer * key) :=
  let sample_key := snd (split (snd st)) in
  bindM (train_epoch (fst st) train_ds epoch sample_key) (fun om =>
  ret (fst om, sample_key)).

(** [train(train_ds)]. *)
Definition train (train_ds : dataset F) : M optimizer :=
  let rng := PRNGKey 1 in
  stochastic rng
    (bindM (create_model rng [15; 1]) (fun model =>
     let opt := create_optimizer model (learning_rate flags) (lit (9 # 10)) in
     bindM make_rng (fun sample_key =>
     bindM (for_eachM (range 1 (num_epochs flags + 1)) (epoch_body train_ds)
              (opt, sample_key)) (fun st =>
     ret (fst st))))).

(** *** The training run in closed form

    The same run written without the frame stack and without a loop-carried
    key: the key of epoch [e] is [e] times the second half of a split of
    the first key of a frame opened on [PRNGKey(1)]. *)

Definition epoch_key (k0 : key) (e : nat) : key :=
  Nat.iter e (fun k => snd (split k)) k0.

(** Epochs [a + 1, ..., a + len] from optimizer [opt]: the final optimizer
    and the reported [(epoch, loss)] lines. *)
Fixpoint run_epochs (train_ds : dataset F) (k0 : key) (a len : nat) (opt : optimizer)
    : result (optimizer * list (nat * ndarray F)) :=
  match len with
  | 0 => Ok (opt, [])
  | S len' =>
      '(opt', loss) <- train_step opt train_ds (epoch_key k0 (S a)) ;;
      '(opt'', lines) <- run_epochs train_ds k0 (S a) len' opt' ;;
      Ok (opt'', (S a, loss) :: lines)
  end.

Definition train_closed (train_ds : dataset F)
    : result (optimizer * list (nat * ndarray F)) :=
  let rng := PRNGKey 1 in
  let k0 := fst (frame_make_rng (new_frame rng)) in
  out_params <- init_by_shape (init_apply k0 (create_model_kwargs flags)) rng [[15; 1]] ;;
  let opt := create_optimizer (snd out_params) (learning_rate flags) (lit (9 # 10)) in
  run_epochs train_ds k0 0 (num_epochs flags) opt.

(** [step_fun(x)]. *)
Definition step_fun (x : F) : F :=
  if leb x (lit 0) then lit (- 1) else lit 1.

(** [get_datasets()]. *)
Definition get_datasets : result (dataset F) :=
  let rng := PRNGKey 123 in
  let index_points := Np.linspace (lit (- 15 # 10)) (lit (15 # 10)) 25 in
  y <- Np.np_add (Np.array (map step_fun (data index_points)))
         (Np.np_map (mul (lit (1 # 10))) (normal rng (shape index_points))) ;;
  Ok (mkDataset (Np.expand_last index_points) y).

End Train.
End Dgp.

(** ** Interpretations used to run the definitions

    [Exact] is exact rational arithmetic; [Toy] gives every collaborator a
    small executable stand-in (unit-valued kernels, a counter as PRNG). *)

Module Exact.

Definition scalar : Scalar Q := {|
  zero := 0%Q;
  one := 1%Q;
  add := Qplus;
  sub := Qminus;
  mul := Qmult;
  div := Qdiv;
  neg := Qopp;
  leb := Qle_bool;
  of_nat := fun n => inject_Z (Z.of_nat n);
  lit := fun q => q
|}.

(** [jnp.sign] on a rational. *)
Definition sign (x : Q) : Q := inject_Z (Z.sgn (Qnum x)).

(** Point [i] of [jnp.linspace(-1.5, 1.5, 25)], as [linspace] computes it. *)
Definition grid_point (i : nat) : Q :=
  ((- 15 # 10)
   + inject_Z (Z.of_nat i) * (((15 # 10) - (- 15 # 10)) / inject_Z (Z.of_nat 24)))%Q.

End Exact.

Module Toy.
#[local] Existing Instance Exact.scalar.

Definition numeric : JaxNumeric Q := {|
  softplus := fun x => (x * x + 1)%Q;
  cholesky := fun a => a
|}.

Definition random : JaxRandom Q nat := {|
  PRNGKey := Z.to_nat;
  split := fun k => (2 * k, 2 * k + 1);
  normal := fun _ sh => Np.zeros sh
|}.

Definition format : PyFormat Q := {| str_of := fun p => cls p |}.

Definition flax_module : FlaxModule Q nat unit := {|
  param := fun _ _ sh init => init 0 sh;
  child := fun s _ => s
|}.

Definition kernels : Kernels Q nat unit unit := {|
  RBFKernelProvider := fun _ _ _ => Ok tt;
  kernel_call := fun _ x => Ok (Np.ones [hd 0 (shape x); hd 0 (shape x)])
|}.

Definition inducing_variables : InducingVariables Q nat unit unit unit := {|
  InducingPointsProvider := fun _ _ _ _ => Ok tt
|}.

Definition dist_mean (d : MultivariateNormal Q) : ndarray Q :=
  match d with
  | Diag d => diag_mean d
  | TriL d => tril_mean d
  | Full d => full_mean d
  end.

Definition gaussian_processes : GaussianProcesses Q nat unit unit := {|
  marginal := fun v =>
    m <- svgp_mean_fun v (svgp_index_points v) ;;
    Ok (Diag (mkDiag m (Np.ones (shape m))));
  prior_kl := fun _ => Ok (Np.scalar (1 # 2)%Q);
  sample := fun d _ sh => Ok (Np.zeros (sh ++ shape (dist_mean d)));
  log_prob := fun _ _ => Ok (Np.scalar (- 3)%Q)
|}.

Definition flax_stochastic : FlaxStochastic Q nat unit (nat * nat) := {|
  new_frame := fun k => (k, 0);
  frame_make_rng := fun f => (fst f + snd f + 1, (fst f, S (snd f)));
  init_by_shape := fun out apply _ shapes =>
    o <- apply tt (map (fun sh => Np.zeros sh) shapes) ;; Ok (o, tt)
|}.

Definition training : Training Q unit unit unit := {|
  value_and_grad := fun f m => v <- f m ;; Ok (v, tt);
  Adam_create := fun _ _ m => m;
  target := fun o => o;
  apply_gradient := fun o _ => o
|}.

Definition flags : Dgp.FLAGS Q := Dgp.mkFlags (1 # 1000)%Q 3 false 10.

(** A three-point data set. *)
Definition batch : Dgp.dataset Q :=
  Dgp.mkDataset (mkArr [3; 1] [(-1)%Q; 0%Q; 1%Q]) (mkArr [3] [(-1)%Q; (-1)%Q; 1%Q]).

(** A 2 x 2 matrix. *)
Definition mat22 : ndarray Q := mkArr [2; 2] [1%Q; 2%Q; 3%Q; 4%Q].

(** An object with a [mean] field and one without. *)
Definition obj_normal : pyobj Q :=
  mkObj "MultivariateNormalTriL"
    [("mean", mkArr [2] [1%Q; 2%Q]); ("scale", mat22)] true.
Definition obj_no_mean : pyobj Q :=
  mkObj "Kernel" [("amplitude", Np.scalar 1%Q)] true.

(** A flat dictionary of arrays as parameter tree; its tree definition is
    the list of its keys. *)
Definition tree : JaxTree Q (list (string * ndarray Q)) (list string) := {|
  tree_flatten := fun p => (map snd p, map fst p);
  tree_unflatten := fun td ls => combine td ls
|}.

Definition math : JaxMath Q := {| sin := fun x => x |}.

(** Two parameters: a scalar and a 2 x 2 matrix. *)
Definition two_params : list (string * ndarray Q) :=
  [("amplitude", Np.scalar 3%Q); ("scale", mat22)].

End Toy.

(** * Properties *)

(** ** The error monad *)

Lemma bind_ok_inv {A B} (c : result A) (k : A -> result B) (b : B) :
  Py.bind c k = Ok b -> exists a, c = Ok a /\ k a = Ok b.
Proof.
  destruct c as [a | e]; simpl; intros Hk.
  - exists a. split; [reflexivity | exact Hk].
  - discriminate Hk.
Qed.

Tactic Notation "bind_inv" hyp(H) "as" ident(a) ident(Ha) :=
  apply bind_ok_inv in H; destruct H as [a [Ha H]].

(** ** Arrays *)

Module NpFacts.
Section Arrays.
Context {F : Type} `{Scalar F}.

Lemma stride_one (l : list F) : Np.stride 1 0 l = l.
Proof.
  induction l as [| x t IH]; simpl; [reflexivity | now rewrite IH].
Qed.

Lemma mkArr_eta (a : ndarray F) : mkArr (shape a) (data a) = a.
Proof. destruct a; reflexivity. Qed.

(** Reading feature 0 of an array that just received its singleton
    feature axis gives the array back. *)
Lemma index_last0_expand_last (a : ndarray F) :
  Np.index_last0 (Np.expand_last a) = Ok a.
Proof.
  unfold Np.index_last0, Np.expand_last; simpl.
  rewrite rev_app_distr; simpl.
  rewrite removelast_last, stride_one.
  now rewrite mkArr_eta.
Qed.

Lemma size_app (s1 s2 : list nat) : Np.size (s1 ++ s2) = Np.size s1 * Np.size s2.
Proof.
  induction s1 as [| n s1 IH]; simpl; [lia | rewrite IH; lia].
Qed.

Lemma size_ones (r : nat) : Np.size (repeat 1 r) = 1.
Proof. induction r as [| r IH]; simpl; [reflexivity | rewrite IH; reflexivity]. Qed.

Lemma concat_repeat (v : F) (m t : nat) :
  concat (repeat (repeat v m) t) = repeat v (t * m).
Proof.
  induction t as [| t IH]; simpl; [reflexivity |].
  now rewrite IH, repeat_app.
Qed.

Lemma concat_chunks (k m : nat) (d : list F) :
  length d = k * m -> concat (Np.chunks k m d) = d.
Proof.
  revert d; induction k as [| k IH]; simpl; intros d Hd.
  - now destruct d.
  - rewrite IH; [apply firstn_skipn |].
    rewrite length_skipn; lia.
Qed.

Lemma chunks_lengths (k m : nat) (d : list F) :
  length d = k * m -> Forall (fun c => length c = m) (Np.chunks k m d).
Proof.
  revert d; induction k as [| k IH]; simpl; intros d Hd; constructor.
  - rewrite length_firstn; lia.
  - apply IH. rewrite length_skipn; lia.
Qed.

Lemma chunks_singletons (d : list F) :
  Np.chunks (length d) 1 d = map (fun x => [x]) d.
Proof.
  induction d as [| x t IH]; simpl; [reflexivity | now rewrite IH].
Qed.

(** Stretching an array to its own shape changes nothing. *)
Lemma bcast_id (sh : list nat) (d : list F) :
  length d = Np.size sh -> Np.bcast sh sh d = d.
Proof.
  revert d; induction sh as [| s ss IH]; intros d Hd; simpl; [reflexivity |].
  rewrite Nat.eqb_refl.
  simpl in Hd.
  assert (Hmap : map (Np.bcast ss ss) (Np.chunks s (Np.size ss) d)
                 = Np.chunks s (Np.size ss) d).
  { pose proof (chunks_lengths s (Np.size ss) d Hd) as Hall.
    induction Hall as [| c cs Hc _ IHc]; simpl; [reflexivity |].
    now rewrite IH, IHc. }
  rewrite Hmap. now apply concat_chunks.
Qed.

(** Stretching a one-element array fills the target with that element. *)
Lemma bcast_fill (tgt : list nat) (v : F) :
  Np.bcast (repeat 1 (length tgt)) tgt [v] = repeat v (Np.size tgt).
Proof.
  induction tgt as [| t ts IH]; [reflexivity |].
  change (Np.size (t :: ts)) with (t * Np.size ts).
  cbn [length repeat Np.bcast].
  destruct (Nat.eqb_spec 1 t) as [Ht | Ht].
  - subst t. rewrite size_ones. cbn [Np.chunks firstn map concat].
    rewrite IH, app_nil_r. f_equal; lia.
  - now rewrite IH, concat_repeat.
Qed.

Lemma pad_self (sh : list nat) : Np.pad (length sh) sh = sh.
Proof. unfold Np.pad. now rewrite Nat.sub_diag. Qed.

Lemma pad_scalar (r : nat) : Np.pad r [] = repeat 1 r.
Proof. unfold Np.pad; simpl. now rewrite Nat.sub_0_r, app_nil_r. Qed.

Lemma pad_unit (r : nat) : 0 < r -> Np.pad r [1] = repeat 1 r.
Proof.
  intros Hr. unfold Np.pad; simpl.
  destruct r as [| r]; [lia |].
  simpl. rewrite Nat.sub_0_r.
  change [1] with (repeat 1 1). rewrite <- repeat_app.
  replace (r + 1) with (S r) by lia. reflexivity.
Qed.

Lemma bshape_rev_nil_r (r : list nat) : Np.bshape_rev r [] = Some r.
Proof. now destruct r. Qed.

Lemma broadcast_shapes_scalar_r (sh : list nat) :
  Np.broadcast_shapes sh [] = Some sh.
Proof.
  unfold Np.broadcast_shapes; simpl.
  now rewrite bshape_rev_nil_r; simpl; rewrite rev_involutive.
Qed.

Lemma broadcast_shapes_unit_r (sh : list nat) :
  sh <> [] -> Np.broadcast_shapes sh [1] = Some sh.
Proof.
  intros Hsh. unfold Np.broadcast_shapes.
  change (rev [1]) with [1].
  destruct (rev sh) as [| a t] eqn:Hrev.
  - apply (f_equal (@rev nat)) in Hrev. rewrite rev_involutive in Hrev.
    now destruct Hsh.
  - cbn [Np.bshape_rev]. rewrite bshape_rev_nil_r.
    destruct (a =? 1); rewrite ?Nat.eqb_refl; cbn [option_map];
      now rewrite <- Hrev, rev_involutive.
Qed.

Lemma broadcast_shapes_same (sh : list nat) :
  Np.broadcast_shapes sh sh = Some sh.
Proof.
  unfold Np.broadcast_shapes.
  assert (Hs : forall r, Np.bshape_rev r r = Some r).
  { induction r as [| a t IH]; simpl; [reflexivity |].
    now rewrite IH, Nat.eqb_refl. }
  rewrite Hs; simpl. now rewrite rev_involutive.
Qed.

Lemma zip_with_repeat (f : F -> F -> F) (a b : F) (n : nat) :
  Np.zip_with f (repeat a n) (repeat b n) = repeat (f a b) n.
Proof. induction n as [| n IH]; simpl; [reflexivity | now rewrite IH]. Qed.

Lemma zip_with_repeat_r (f : F -> F -> F) (l : list F) (b : F) :
  Np.zip_with f l (repeat b (length l)) = map (fun x => f x b) l.
Proof. induction l as [| x t IH]; simpl; [reflexivity | now rewrite IH]. Qed.

Lemma zip_with_length (f : F -> F -> F) (l1 l2 : list F) :
  length l1 = length l2 -> length (Np.zip_with f l1 l2) = length l1.
Proof.
  revert l2; induction l1 as [| x t IH]; intros [| y u]; simpl; intros Hl;
    try reflexivity; try discriminate.
  now rewrite IH by lia.
Qed.

Lemma zip_with_nth (f : F -> F -> F) (l1 l2 : list F) (i : nat) (d : F) :
  length l1 = length l2 -> i < length l1 ->
  nth i (Np.zip_with f l1 l2) d = f (nth i l1 d) (nth i l2 d).
Proof.
  revert l2 i; induction l1 as [| x t IH]; intros [| y u] i; simpl; intros Hl Hi;
    try lia; try discriminate.
  destruct i as [| i]; [reflexivity |].
  apply IH; lia.
Qed.

Lemma splice_length (off : nat) (blk d : list F) :
  off + length blk <= length d -> length (Np.splice off blk d) = length d.
Proof.
  intros Hoff. unfold Np.splice.
  rewrite !length_app, length_firstn, length_skipn. lia.
Qed.

Lemma splice_nth (off : nat) (v : F) (d : list F) (k : nat) (z : F) :
  off < length d ->
  nth k (Np.splice off [v] d) z = if k =? off then v else nth k d z.
Proof.
  intros Hoff. unfold Np.splice.
  assert (Hlen : length (firstn off d) = off) by (rewrite length_firstn; lia).
  destruct (Nat.eqb_spec k off) as [-> | Hne].
  - rewrite app_nth2 by lia. rewrite Hlen, Nat.sub_diag. reflexivity.
  - destruct (Nat.lt_ge_cases k off) as [Hlt | Hge].
    + rewrite app_nth1 by lia. rewrite nth_firstn.
      now apply Nat.ltb_lt in Hlt; rewrite Hlt.
    + rewrite app_nth2 by lia. rewrite Hlen.
      destruct (k - off) as [| m] eqn:Hm; [lia |].
      cbn [app nth length]. rewrite nth_skipn. f_equal. lia.
Qed.

Lemma ravel_matrix (r c i j : nat) :
  i < r -> j < c -> Np.ravel [r; c] [i; j] = Some (i * c + j).
Proof.
  intros Hi Hj. cbn [Np.ravel].
  apply Nat.ltb_lt in Hi, Hj. rewrite Hi, Hj.
  cbn. f_equal. lia.
Qed.

Lemma grid_index_inj (n i j a b : nat) :
  j < n -> b < n -> i * n + j = a * n + b -> i = a /\ j = b.
Proof.
  intros Hj Hb He.
  destruct (Nat.lt_trichotomy i a) as [Hlt | [Heq | Hgt]].
  - assert (S i * n <= a * n) by (apply Nat.mul_le_mono_r; lia). simpl in *; lia.
  - subst i. lia.
  - assert (S a * n <= i * n) by (apply Nat.mul_le_mono_r; lia). simpl in *; lia.
Qed.

(** Writing the values [vs] on the diagonal cells [a, a + 1, ...] of an
    [n] x [n] buffer touches those cells and no other. *)
Lemma scatter_diag (n : nat) (z : F) (vs : list F) :
  forall (a : nat) (d : list F),
    length d = n * n -> a + length vs <= n ->
    let d' := fold_left (Np.scatter_step [n; n])
                (combine (map (fun j => [j; j]) (seq a (length vs)))
                         (map (fun x => [x]) vs)) d in
    length d' = n * n /\
    forall i j, i < n -> j < n ->
      nth (i * n + j) d' z =
        if (i =? j) && (a <=? i) && (i <? a + length vs)
        then nth (i - a) vs z
        else nth (i * n + j) d z.
Proof.
  induction vs as [| v vs IH]; intros a d Hd Ha; cbn [length seq map combine fold_left].
  - split; [exact Hd |]. intros i j _ _.
    replace (i <? a + 0) with (negb (a <=? i)).
    + now destruct (i =? j), (a <=? i).
    + destruct (Nat.leb_spec a i), (Nat.ltb_spec i (a + 0)); simpl; lia.
  - cbn [length] in Ha.
    assert (Han : a < n) by lia.
    assert (Hstep : Np.scatter_step [n; n] d ([a; a], [v])
                    = Np.splice (a * n + a) [v] d).
    { unfold Np.scatter_step. cbn [fst snd].
      now rewrite (ravel_matrix n n a a Han Han). }
    rewrite Hstep.
    assert (Hoff : a * n + a < length d) by (rewrite Hd; nia).
    assert (Hd1 : length (Np.splice (a * n + a) [v] d) = n * n).
    { rewrite splice_length; [exact Hd | simpl; lia]. }
    destruct (IH (S a) _ Hd1 ltac:(lia)) as [Hlen Hnth].
    split; [exact Hlen |].
    intros i j Hi Hj. rewrite (Hnth i j Hi Hj), splice_nth by exact Hoff.
    destruct (Nat.eqb_spec i j) as [-> | Hij]; cbn [andb].
    + destruct (Nat.leb_spec (S a) j), (Nat.leb_spec a j),
        (Nat.ltb_spec j (S a + length vs)), (Nat.ltb_spec j (a + S (length vs)));
        cbn [andb]; try lia.
      * replace (j - a) with (S (j - S a)) by lia. reflexivity.
      * destruct (Nat.eqb_spec (j * n + j) (a * n + a)) as [He | He]; [| reflexivity].
        apply grid_index_inj in He; lia.
      * assert (j = a) by lia; subst j.
        rewrite Nat.eqb_refl, Nat.sub_diag. reflexivity.
      * destruct (Nat.eqb_spec (j * n + j) (a * n + a)) as [He | He]; [| reflexivity].
        apply grid_index_inj in He; lia.
    + destruct (Nat.eqb_spec (i * n + j) (a * n + a)) as [He | He]; [| reflexivity].
      apply grid_index_inj in He; lia.
Qed.

Lemma diag_square (mat : ndarray F) (n : nat) :
  shape mat = [n; n] ->
  Np.diag mat =
    Ok (mkArr [n] (map (fun k => nth (k * n + k) (data mat) zero) (seq 0 n))).
Proof.
  intros Hs. unfold Np.diag. rewrite Hs, Nat.min_id. reflexivity.
Qed.

(** Adding a scalar to an array adds it to every element. *)
Lemma np_add_scalar (a : ndarray F) (v : F) :
  Np.wf a ->
  Np.np_add a (Np.scalar v) = Ok (mkArr (shape a) (map (fun x => add x v) (data a))).
Proof.
  intros Hwf. unfold Np.np_add, Np.broadcast2, Np.scalar.
  cbn [shape data]. rewrite broadcast_shapes_scalar_r.
  rewrite pad_self, pad_scalar, bcast_id, bcast_fill by exact Hwf.
  rewrite <- Hwf, zip_with_repeat_r. reflexivity.
Qed.

Lemma broadcast_to_same (a : ndarray F) :
  Np.wf a -> Np.broadcast_to a (shape a) = Ok a.
Proof.
  intros Hwf. unfold Np.broadcast_to.
  rewrite broadcast_shapes_same. unfold Np.shape_eqb.
  destruct (list_eq_dec Nat.eq_dec (shape a) (shape a)) as [_ | Hne];
    [| now destruct Hne].
  rewrite pad_self, bcast_id by exact Hwf. now rewrite mkArr_eta.
Qed.

(** Element [(i, j)] of a buffer laid out row by row. *)
Lemma nth_grid (g : nat -> nat -> F) (r c i j : nat) (z : F) :
  i < r -> j < c ->
  nth (i * c + j)
      (flat_map (fun i' => map (fun j' => g i' j') (seq 0 c)) (seq 0 r)) z
  = g i j.
Proof.
  intros Hi Hj.
  assert (Hgen : forall len k a, k < len ->
            nth (k * c + j)
                (flat_map (fun i' => map (fun j' => g i' j') (seq 0 c)) (seq a len)) z
            = g (a + k) j).
  { induction len as [| len IH]; intros k a Hk; [lia |].
    cbn [seq flat_map].
    destruct k as [| k].
    - change (0 * c + j) with j.
      rewrite app_nth1 by (rewrite length_map, length_seq; lia).
      rewrite (nth_indep _ z (g a 0)) by (rewrite length_map, length_seq; lia).
      rewrite (map_nth (fun j' => g a j') (seq 0 c) 0 j), seq_nth by lia.
      now rewrite Nat.add_0_r.
    - rewrite app_nth2 by (rewrite length_map, length_seq; lia).
      rewrite length_map, length_seq.
      replace (S k * c + j - c) with (k * c + j) by lia.
      rewrite IH by lia. f_equal. lia. }
  now rewrite Hgen.
Qed.

Lemma length_grid (g : nat -> nat -> F) (r c : nat) :
  length (flat_map (fun i' => map (fun j' => g i' j') (seq 0 c)) (seq 0 r)) = r * c.
Proof.
  rewrite (flat_map_constant_length (c := c)).
  - now rewrite length_seq.
  - intros x _. now rewrite length_map, length_seq.
Qed.

End Arrays.
End NpFacts.

(** ** basic_regression2.py *)

Module RegressionFacts.
Section Model.
Context {F key scope kernel : Type}.
Context `{Scalar F} `{JaxNumeric F} `{PyFormat F}.
Context `{FlaxModule F key scope} `{Kernels F key scope kernel}.

Lemma diag_points (n : nat) :
  map (fun j => map (fun ix => nth j ix 0) (Np.diag_indices n 2)) (seq 0 n)
  = map (fun j => [j; j]) (seq 0 n).
Proof.
  apply map_ext_in. intros j Hj. apply in_seq in Hj.
  cbn [Np.diag_indices repeat map]. now rewrite seq_nth by lia.
Qed.

(** The buffer that [_diag_shift] returns on a square matrix, cell by cell. *)
Lemma diag_shift_cells (mat : ndarray F) (n : nat) (val : F) :
  shape mat = [n; n] -> Np.wf mat ->
  exists m',
    Regression._diag_shift mat (Np.scalar val) = Ok m' /\
    shape m' = [n; n] /\ Np.wf m' /\
    forall i j, i < n -> j < n ->
      Np.get2 m' i j =
        if i =? j then add (Np.get2 mat i i) val else Np.get2 mat i j.
Proof.
  intros Hs Hwf.
  set (dg := map (fun k => nth (k * n + k) (data mat) zero) (seq 0 n)).
  set (vs := map (fun x => add x val) dg).
  assert (Hvs : length vs = n) by (unfold vs, dg; now rewrite !length_map, length_seq).
  assert (Hd : length (data mat) = n * n).
  { unfold Np.wf in Hwf. rewrite Hwf, Hs. simpl. lia. }
  destruct (NpFacts.scatter_diag n zero vs 0 (data mat) Hd ltac:(lia)) as [Hlen Hnth].
  assert (Hch : Np.chunks n 1 vs = map (fun x => [x]) vs).
  { rewrite <- Hvs. apply NpFacts.chunks_singletons. }
  exists (mkArr [n; n]
            (fold_left (Np.scatter_step [n; n])
               (combine (map (fun j => [j; j]) (seq 0 (length vs)))
                        (map (fun x => [x]) vs))
               (data mat))).
  split; [| split; [| split]].
  - unfold Regression._diag_shift, Np.shape_last. rewrite Hs. cbn [rev app Py.bind].
    rewrite (NpFacts.diag_square mat n Hs). cbn [Py.bind].
    rewrite NpFacts.np_add_scalar
      by (unfold Np.wf; cbn [shape data Np.size fold_right];
          rewrite length_map, length_seq; lia).
    cbn [Py.bind shape data]. fold dg. fold vs.
    unfold Np.index_update. rewrite Hs.
    cbn [length Np.diag_indices repeat hd forallb skipn shape data].
    rewrite length_seq, Nat.eqb_refl. cbn [Nat.ltb Nat.leb andb negb].
    replace [n] with (shape (mkArr [n] vs)) at 1 by reflexivity.
    rewrite NpFacts.broadcast_to_same
      by (unfold Np.wf; cbn [shape data Np.size fold_right]; lia).
    cbn [Py.bind data Np.size fold_right].
    rewrite Hch.
    change (map (fun j => map (fun ix => nth j ix 0) [seq 0 n; seq 0 n]) (seq 0 n))
      with (map (fun j => map (fun ix => nth j ix 0) (Np.diag_indices n 2)) (seq 0 n)).
    rewrite diag_points, Hvs. reflexivity.
  - reflexivity.
  - unfold Np.wf. cbn [shape data]. rewrite Hlen. simpl. lia.
  - intros i j Hi Hj. unfold Np.get2 at 1. cbn [shape data].
    rewrite (Hnth i j Hi Hj). unfold Np.get2. rewrite Hs.
    rewrite Hvs, Nat.sub_0_r. change (0 + n) with n. change (0 <=? i) with true.
    assert (Hib : (i <? n) = true) by now apply Nat.ltb_lt.
    rewrite Hib, !andb_true_r.
    destruct (Nat.eqb_spec i j) as [-> | Hij]; [| reflexivity].
    unfold vs.
    rewrite (nth_indep _ zero (add zero val)) by (fold vs; lia).
    rewrite (map_nth (fun x => add x val) dg zero j).
    unfold dg.
    rewrite (nth_indep _ zero ((fun k => nth (k * n + k) (data mat) zero) 0))
      by (rewrite length_map, length_seq; lia).
    rewrite (map_nth (fun k => nth (k * n + k) (data mat) zero) (seq 0 n) 0 j).
    rewrite seq_nth by lia. reflexivity.
Qed.

(** C9: on a square matrix [_diag_shift] succeeds; the result has the
    shape of [mat], every off-diagonal cell is the cell of [mat], every
    diagonal cell is the cell of [mat] plus [val]; and the call allocates
    its result, so the buffer that [mat] names is the same before and
    after. *)
Theorem diag_shift_spec (mat : ndarray F) (n : nat) (val : F) :
  shape mat = [n; n] -> Np.wf mat ->
  exists m',
    Regression._diag_shift mat (Np.scalar val) = Ok m' /\
    shape m' = shape mat /\
    (forall i j, i < n -> j < n -> i <> j -> Np.get2 m' i j = Np.get2 mat i j) /\
    (forall i, i < n -> Np.get2 m' i i = add (Np.get2 mat i i) val) /\
    (forall (s : Regression.store) (r : nat),
        nth_error s r = Some mat ->
        exists r' s',
          Regression._diag_shift_ref s r (Np.scalar val) = Ok (r', s') /\
          nth_error s' r = Some mat /\
          nth_error s' r' = Some m').
Proof.
  intros Hs Hwf.
  destruct (diag_shift_cells mat n val Hs Hwf) as [m' [Hrun [Hsh [_ Hcells]]]].
  exists m'. split; [exact Hrun |]. split; [congruence |].
  split; [| split].
  - intros i j Hi Hj Hij. rewrite (Hcells i j Hi Hj).
    now destruct (Nat.eqb_spec i j).
  - intros i Hi. rewrite (Hcells i i Hi Hi). now rewrite Nat.eqb_refl.
  - intros s r Hr. exists (length s), (s ++ [m']).
    unfold Regression._diag_shift_ref. rewrite Hr, Hrun. cbn [Py.bind].
    split; [reflexivity |]. split.
    + rewrite nth_error_app1; [exact Hr |].
      apply nth_error_Some. congruence.
    + rewrite nth_error_app2 by lia. now rewrite Nat.sub_diag.
Qed.

(** C4: [GaussianProcessLayer.apply] adds [jitter] to every diagonal cell
    of the kernel matrix and factorises the shifted matrix: the result is
    the TriL normal with mean [mean_fun(index_points)] and scale
    [cholesky(K')], where [K'] is [kernel_fun(index_points)] with [jitter]
    on the diagonal. *)
Theorem gp_layer_jitter_then_cholesky
    (index_points : ndarray F)
    (kernel_fun : ndarray F -> result (ndarray F))
    (mean_fun : option (ndarray F -> result (ndarray F)))
    (jitter : F) (K m : ndarray F) (n : nat) :
  kernel_fun index_points = Ok K -> shape K = [n; n] -> Np.wf K ->
  match mean_fun with
  | Some f => f index_points
  | None => Ok (Np.zeros (Np.shape_init index_points))
  end = Ok m ->
  exists K',
    Regression.GaussianProcessLayer_apply index_points kernel_fun mean_fun jitter
      = Ok (mkTriL m (cholesky K')) /\
    Regression._diag_shift K (Np.scalar jitter) = Ok K' /\
    shape K' = [n; n] /\
    forall i j, i < n -> j < n ->
      Np.get2 K' i j = if i =? j then add (Np.get2 K i i) jitter else Np.get2 K i j.
Proof.
  intros HK Hs Hwf Hm.
  destruct (diag_shift_cells K n jitter Hs Hwf) as [K' [Hrun [Hsh [_ Hcells]]]].
  exists K'. split; [| split; [exact Hrun | split; [exact Hsh | exact Hcells]]].
  unfold Regression.GaussianProcessLayer_apply.
  destruct mean_fun as [f |]; rewrite Hm; cbn [Py.bind];
    rewrite HK; cbn [Py.bind]; rewrite Hrun; reflexivity.
Qed.

(** *** The marginal observation model *)

Lemma unravel_matrix (n l j : nat) :
  j < n -> Np.unravel [n; n] (l * n + j) = [l; j].
Proof.
  intros Hj. cbn [Np.unravel Np.size fold_right].
  rewrite !Nat.mul_1_r, Nat.div_1_r.
  rewrite Nat.div_add_l, Nat.div_small, Nat.add_0_r by lia.
  rewrite Nat.add_comm, Nat.Div0.mod_add, Nat.mod_small by lia.
  reflexivity.
Qed.

Lemma transpose_square (a : ndarray F) (n : nat) :
  shape a = [n; n] ->
  shape (Np.transpose a) = [n; n] /\
  length (data (Np.transpose a)) = n * n /\
  forall l j, l < n -> j < n -> Np.get2 (Np.transpose a) l j = Np.get2 a j l.
Proof.
  intros Hs. unfold Np.transpose. rewrite Hs. cbn [rev app shape data].
  split; [reflexivity |]. split.
  - rewrite length_map, length_seq. simpl. lia.
  - intros l j Hl Hj. unfold Np.get2. cbn [shape data]. rewrite Hs.
    assert (Hk : l * n + j < Np.size [n; n]).
    { cbn [Np.size fold_right]. rewrite Nat.mul_1_r.
      assert (S l * n <= n * n) by (apply Nat.mul_le_mono_r; lia).
      simpl in *; lia. }
    set (f := fun k => match Np.ravel [n; n] (rev (Np.unravel [n; n] k)) with
                       | Some off => nth off (data a) zero
                       | None => zero
                       end).
    rewrite (nth_indep _ zero (f 0)) by (rewrite length_map, length_seq; exact Hk).
    rewrite (map_nth f (seq 0 (Np.size [n; n])) 0 (l * n + j)).
    rewrite seq_nth by exact Hk. cbn [Nat.add]. unfold f.
    rewrite (unravel_matrix n l j Hj). cbn [rev app].
    now rewrite (NpFacts.ravel_matrix n n j l Hj Hl).
Qed.

Lemma matmul_square (a b : ndarray F) (n : nat) :
  shape a = [n; n] -> shape b = [n; n] ->
  exists c,
    Np.matmul a b = Ok c /\ shape c = [n; n] /\ Np.wf c /\
    forall i j, i < n -> j < n ->
      Np.get2 c i j =
        fold_left add
          (map (fun l => mul (Np.get2 a i l) (Np.get2 b l j)) (seq 0 n)) zero.
Proof.
  intros Ha Hb. unfold Np.matmul. rewrite Ha, Hb, Nat.eqb_refl.
  eexists. split; [reflexivity |]. split; [reflexivity |]. split.
  - unfold Np.wf. cbn [shape data].
    rewrite (NpFacts.length_grid
               (fun i j => fold_left add
                  (map (fun l => mul (nth (i * n + l) (data a) zero)
                                     (nth (l * n + j) (data b) zero)) (seq 0 n)) zero)).
    simpl. lia.
  - intros i j Hi Hj. unfold Np.get2 at 1. cbn [shape data].
    rewrite (NpFacts.nth_grid
               (fun i j => fold_left add
                  (map (fun l => mul (nth (i * n + l) (data a) zero)
                                     (nth (l * n + j) (data b) zero)) (seq 0 n)) zero)
               n n i j zero Hi Hj).
    unfold Np.get2. now rewrite Ha, Hb.
Qed.

(** [MarginalObservationModel.apply] keeps the mean and returns the
    covariance [L L^T] with the squared softplus of the stored parameter
    on the diagonal. *)
Lemma marginal_observation_model_spec (self : scope)
    (pf : MultivariateNormalTriL F) (n : nat) (p : F) :
  shape (tril_scale pf) = [n; n] -> Np.wf (tril_scale pf) ->
  param self "observation_noise_scale" [] Regression.initializers_ones = Np.scalar p ->
  let noise_scale := softplus p in
  let L := tril_scale pf in
  exists C,
    Regression.MarginalObservationModel_apply self pf = Ok (mkFull (tril_mean pf) C) /\
    shape C = [n; n] /\
    forall i j, i < n -> j < n ->
      let LLt_ij :=
        fold_left add
          (map (fun l => mul (Np.get2 L i l) (Np.get2 L j l)) (seq 0 n)) zero in
      Np.get2 C i j =
        if i =? j then add LLt_ij (mul noise_scale noise_scale) else LLt_ij.
Proof.
  intros Hs Hwf Hp noise_scale L.
  destruct (transpose_square (tril_scale pf) n Hs) as [HsT [_ HT]].
  destruct (matmul_square (tril_scale pf) (Np.transpose (tril_scale pf)) n Hs HsT)
    as [c [Hc [Hsc [Hwc Hcells]]]].
  destruct (diag_shift_cells c n (mul noise_scale noise_scale) Hsc Hwc)
    as [C [Hrun [HsC [_ HC]]]].
  exists C. split; [| split; [exact HsC |]].
  - unfold Regression.MarginalObservationModel_apply.
    rewrite Hc. cbn [Py.bind]. rewrite Hp.
    change (Np.np_square (Np.np_map softplus (Np.scalar p)))
      with (Np.scalar (mul noise_scale noise_scale)).
    rewrite Hrun. reflexivity.
  - intros i j Hi Hj LLt_ij. rewrite (HC i j Hi Hj).
    assert (Hrow : forall k, k < n ->
              Np.get2 c i k =
                fold_left add
                  (map (fun l => mul (Np.get2 L i l) (Np.get2 L k l)) (seq 0 n)) zero).
    { intros k Hk. rewrite (Hcells i k Hi Hk). f_equal.
      apply map_ext_in. intros l Hl. apply in_seq in Hl.
      now rewrite HT by lia. }
    destruct (Nat.eqb_spec i j) as [-> | Hij].
    + now rewrite (Hrow j Hj).
    + now rewrite (Hrow j Hj).
Qed.

(** *** Mean shifting *)

Lemma find_replace_same (name : string) (v : ndarray F)
    (l : list (string * ndarray F)) (kv : string * ndarray F) :
  find (fun kv => String.eqb (fst kv) name) l = Some kv ->
  find (fun kv => String.eqb (fst kv) name)
       (map (fun kv => if String.eqb (fst kv) name then (name, v) else kv) l)
  = Some (name, v).
Proof.
  induction l as [| [k w] l IH]; cbn [find map fst]; [discriminate |].
  destruct (String.eqb_spec k name) as [-> | Hk]; intros Hf.
  - cbn [find fst]. now rewrite String.eqb_refl.
  - cbn [find fst]. apply String.eqb_neq in Hk. rewrite Hk. now apply IH.
Qed.

Lemma find_replace_other (name name' : string) (v : ndarray F)
    (l : list (string * ndarray F)) :
  name' <> name ->
  find (fun kv => String.eqb (fst kv) name')
       (map (fun kv => if String.eqb (fst kv) name then (name, v) else kv) l)
  = find (fun kv => String.eqb (fst kv) name') l.
Proof.
  intros Hne. induction l as [| [k w] l IH]; cbn [find map fst]; [reflexivity |].
  destruct (String.eqb_spec k name) as [-> | Hk]; cbn [find fst].
  - assert (Hn : String.eqb name name' = false) by (apply String.eqb_neq; congruence).
    now rewrite Hn.
  - now rewrite IH.
Qed.

Lemma getattr_ok_inv (p : pyobj F) (name : string) (m : ndarray F) :
  Regression.getattr p name = Ok m ->
  exists kv, find (fun kv => String.eqb (fst kv) name) (fields p) = Some kv
             /\ snd kv = m.
Proof.
  unfold Regression.getattr.
  destruct (find _ (fields p)) as [kv |]; intros Hg; [| discriminate].
  exists kv. split; [reflexivity | congruence].
Qed.

(** C6, as the code has it: mean shifting is duck typed.  On a dataclass
    with a [mean] field the result is an object of the same class whose
    [mean] is [p.mean + shift] and whose other attributes are those of
    [p]; on an object without [replace] or without [mean] the attribute
    error raised by the attempt is caught and raised again as
    [AttributeError('<p> must have a `mean` field.')]. *)
Theorem mean_shift_duck_typed (p : pyobj F) (shift : ndarray F) :
  (forall m s,
      is_dataclass p = true ->
      Regression.getattr p "mean" = Ok m ->
      Np.np_add m shift = Ok s ->
      exists p',
        Regression.MeanShiftDistribution_apply p shift = Ok p' /\
        cls p' = cls p /\
        Regression.getattr p' "mean" = Ok s /\
        forall name, name <> "mean" ->
          Regression.getattr p' name = Regression.getattr p name) /\
  (is_dataclass p = false \/ (exists e, Regression.getattr p "mean" = Raise e) ->
   Regression.MeanShiftDistribution_apply p shift
     = Raise (AttributeError (str_of p ++ " must have a `mean` field.")%string)).
Proof.
  split.
  - intros m s Hdc Hm Hs.
    destruct (getattr_ok_inv p "mean" m Hm) as [kv [Hfind Hkv]].
    assert (Hex : existsb (fun kv => String.eqb (fst kv) "mean") (fields p) = true).
    { apply existsb_exists. exists kv.
      apply find_some in Hfind. exact Hfind. }
    eexists. split; [| split; [| split]].
    + unfold Regression.MeanShiftDistribution_apply, Regression.get_replace.
      rewrite Hdc. cbn [Py.bind]. rewrite Hm. cbn [Py.bind]. rewrite Hs.
      cbn [Py.bind]. unfold Regression.replace. rewrite Hex. reflexivity.
    + reflexivity.
    + unfold Regression.getattr. cbn [fields].
      now rewrite (find_replace_same "mean" s (fields p) kv Hfind).
    + intros name Hname. unfold Regression.getattr. cbn [fields cls].
      now rewrite (find_replace_other "mean" name s (fields p) Hname).
  - intros [Hdc | [e He]];
      unfold Regression.MeanShiftDistribution_apply, Regression.get_replace.
    + rewrite Hdc. reflexivity.
    + destruct (is_dataclass p); [| reflexivity].
      cbn [Py.bind]. rewrite He. cbn [Py.bind].
      unfold Regression.getattr in He.
      destruct (find _ (fields p)); [discriminate |].
      injection He as <-. reflexivity.
Qed.

End Model.
End RegressionFacts.

(** ** basic_dgp.py *)

Module DgpFacts.
Section Model.
Context {F key scope kernel inducing : Type}.
Context `{Scalar F} `{JaxNumeric F}.
Context `{FlaxModule F key scope} `{Kernels F key scope kernel}.
Context `{InducingVariables F key scope kernel inducing}.
Context `{GaussianProcesses F key kernel inducing}.

(** [LikelihoodProvider.apply] on an input with at least two axes: the
    mean is feature 0 of the input and every scale is one times the
    softplus of the stored parameter. *)
Lemma likelihood_provider_spec (self : scope) (x : ndarray F)
    (sh : list nat) (d : nat) (p : F) :
  shape x = sh ++ [S d] -> sh <> [] ->
  param self "observation_noise_scale" [1] Dgp.observation_noise_scale_init
    = mkArr [1] [p] ->
  exists mean,
    Np.index_last0 x = Ok mean /\
    shape mean = sh /\
    Dgp.LikelihoodProvider_apply self x
      = Ok (mkDiag mean (Np.full sh (mul one (softplus p)))).
Proof.
  intros Hx Hsh Hp.
  assert (Hidx : Np.index_last0 x
                 = Ok (mkArr sh (Np.stride (S d) 0 (data x)))).
  { unfold Np.index_last0. rewrite Hx, rev_app_distr. cbn [rev app].
    now rewrite removelast_last. }
  eexists. split; [exact Hidx |]. split; [reflexivity |].
  unfold Dgp.LikelihoodProvider_apply. rewrite Hidx, Hp. cbn [Py.bind].
  unfold Np.shape_init. rewrite Hx, removelast_last.
  unfold Np.np_mul, Np.broadcast2, Np.ones, Np.full, Np.np_map.
  cbn [shape data map].
  rewrite (NpFacts.broadcast_shapes_unit_r sh Hsh).
  rewrite NpFacts.pad_self, NpFacts.bcast_id by apply repeat_length.
  rewrite NpFacts.pad_unit by (destruct sh; [contradiction | simpl; lia]).
  rewrite NpFacts.bcast_fill, NpFacts.zip_with_repeat.
  reflexivity.
Qed.

(** What a successful run of [DeepGPModel.apply] has computed: two layers,
    the first on the raw input with the zero mean, the second on the
    expanded sample of the first with the feature-reading mean, and the
    likelihood on the expanded sample of the second. *)
Lemma DeepGPModel_apply_inv (self : scope) (flags : Dgp.FLAGS F) (x : ndarray F)
    (sample_key : key) (kwargs : list (string * kwdict F key))
    (ll : MultivariateNormalDiag F) (vgps : list (nat * SVGP F kernel inducing)) :
  Dgp.DeepGPModel_apply self flags x sample_key kwargs = Ok (ll, vgps) ->
  exists kf1 iv1 m1 s1 kf2 iv2 m2 s2,
    let v1 := mkSVGP x Dgp.initial_mean_fun kf1 iv1 "vgp_1" in
    let v2 := mkSVGP (Np.expand_last s1) Dgp.later_mean_fun kf2 iv2 "vgp_2" in
    marginal v1 = Ok m1 /\
    sample m1 sample_key Dgp.sample_shape = Ok s1 /\
    marginal v2 = Ok m2 /\
    sample m2 sample_key Dgp.sample_shape = Ok s2 /\
    vgps = [(1, v1); (2, v2)] /\
    Dgp.LikelihoodProvider_apply (child self "loglik") (Np.expand_last s2) = Ok ll.
Proof.
  unfold Dgp.DeepGPModel_apply. intros Hrun.
  bind_inv Hrun as st Hst. bind_inv Hrun as loglik Hll.
  injection Hrun as <- <-.
  change (Py.range 1 3) with [1; 2] in Hst.
  cbn [Py.for_each] in Hst.
  bind_inv Hst as st1 Hst1. bind_inv Hst as st2 Hst2.
  injection Hst as <-.
  unfold Dgp.layer_body in Hst1, Hst2.
  cbn [Dgp.loop_x Dgp.loop_mf Dgp.loop_vgps] in Hst1.
  bind_inv Hst1 as kw1 Hkw1. bind_inv Hst1 as kf1 Hkf1.
  bind_inv Hst1 as kwi1 Hkwi1. bind_inv Hst1 as iv1 Hiv1.
  bind_inv Hst1 as m1 Hm1. bind_inv Hst1 as s1 Hs1.
  injection Hst1 as <-.
  cbn [Dgp.loop_x Dgp.loop_mf Dgp.loop_vgps] in Hst2.
  bind_inv Hst2 as kw2 Hkw2. bind_inv Hst2 as kf2 Hkf2.
  bind_inv Hst2 as kwi2 Hkwi2. bind_inv Hst2 as iv2 Hiv2.
  bind_inv Hst2 as m2 Hm2. bind_inv Hst2 as s2 Hs2.
  injection Hst2 as <-.
  cbn [Dgp.loop_x Dgp.loop_vgps] in *.
  exists kf1, iv1, m1, s1, kf2, iv2, m2, s2.
  repeat split; assumption || reflexivity.
Qed.




(** C2: the mean function given to layer 1 sends an array [a] to the zero
    array of shape [a.shape[:-1]]; the mean function given to every later
    layer sends [a] to [a[..., 0]], which on the layer's own index points
    is the previous layer's sample. *)
Theorem layer_mean_functions (self : scope) (flags : Dgp.FLAGS F) (x : ndarray F)
    (sample_key : key) (kwargs : list (string * kwdict F key))
    (ll : MultivariateNormalDiag F) (vgps : list (nat * SVGP F kernel inducing)) :
  Dgp.DeepGPModel_apply self flags x sample_key kwargs = Ok (ll, vgps) ->
  (exists v1,
      Dgp.dict_get Nat.eqb vgps 1 = Some v1 /\
      forall a, svgp_mean_fun v1 a
                = Ok (mkArr (removelast (shape a))
                        (repeat zero (Np.size (removelast (shape a)))))) /\
  (forall layer v,
      Dgp.dict_get Nat.eqb vgps layer = Some v -> layer <> 1 ->
      (forall a, svgp_mean_fun v a = Np.index_last0 a) /\
      exists prev m s,
        Dgp.dict_get Nat.eqb vgps (layer - 1) = Some prev /\
        marginal prev = Ok m /\
        sample m sample_key Dgp.sample_shape = Ok s /\
        svgp_mean_fun v (svgp_index_points v) = Ok s).
Proof.
  intros Hrun. apply DeepGPModel_apply_inv in Hrun.
  destruct Hrun as (kf1 & iv1 & m1 & s1 & kf2 & iv2 & m2 & s2 & Hrun).
  cbv zeta in Hrun. destruct Hrun as (Hm1 & Hs1 & _ & _ & -> & _).
  split.
  - eexists. split; [reflexivity |]. intros a. reflexivity.
  - intros layer v Hget Hlayer.
    destruct layer as [| [| [| layer]]]; try discriminate Hget; [contradiction |].
    injection Hget as <-. cbn [svgp_mean_fun svgp_index_points].
    split; [reflexivity |].
    eexists _, m1, s1. split; [reflexivity |].
    split; [exact Hm1 |]. split; [exact Hs1 |].
    apply NpFacts.index_last0_expand_last.
Qed.

(** C3: layer 1 is built on the raw input; every later layer is built on
    a sample of the previous layer's marginal, drawn with the supplied key
    and sample shape [(17,)], to which a last axis of size 1 is appended.
    The sample is the value of [sample] at that marginal, key and shape,
    so equal keys give equal index points. *)
Theorem layer_index_points (self : scope) (flags : Dgp.FLAGS F) (x : ndarray F)
    (sample_key : key) (kwargs : list (string * kwdict F key))
    (ll : MultivariateNormalDiag F) (vgps : list (nat * SVGP F kernel inducing)) :
  Dgp.DeepGPModel_apply self flags x sample_key kwargs = Ok (ll, vgps) ->
  (exists v1, Dgp.dict_get Nat.eqb vgps 1 = Some v1 /\ svgp_index_points v1 = x) /\
  (forall layer v,
      Dgp.dict_get Nat.eqb vgps layer = Some v -> layer <> 1 ->
      exists prev m s,
        Dgp.dict_get Nat.eqb vgps (layer - 1) = Some prev /\
        marginal prev = Ok m /\
        sample m sample_key [17] = Ok s /\
        svgp_index_points v = Np.expand_last s /\
        shape (svgp_index_points v) = shape s ++ [1] /\
        data (svgp_index_points v) = data s) /\
  (forall ll' vgps',
      Dgp.DeepGPModel_apply self flags x sample_key kwargs = Ok (ll', vgps') ->
      map (fun item => svgp_index_points (snd item)) vgps'
      = map (fun item => svgp_index_points (snd item)) vgps).
Proof.
  intros Hrun. split; [| split].
  - apply DeepGPModel_apply_inv in Hrun.
    destruct Hrun as (kf1 & iv1 & m1 & s1 & kf2 & iv2 & m2 & s2 & Hrun).
    cbv zeta in Hrun. destruct Hrun as (_ & _ & _ & _ & -> & _).
    eexists. split; reflexivity.
  - apply DeepGPModel_apply_inv in Hrun.
    destruct Hrun as (kf1 & iv1 & m1 & s1 & kf2 & iv2 & m2 & s2 & Hrun).
    cbv zeta in Hrun. destruct Hrun as (Hm1 & Hs1 & _ & _ & -> & _).
    intros layer v Hget Hlayer.
    destruct layer as [| [| [| layer]]]; try discriminate Hget; [contradiction |].
    injection Hget as <-. cbn [svgp_index_points].
    eexists _, m1, s1. split; [reflexivity |].
    split; [exact Hm1 |]. split; [exact Hs1 |].
    repeat split.
  - intros ll' vgps' Hrun'. rewrite Hrun in Hrun'. now injection Hrun' as <- <-.
Qed.

(** C10: in one forward evaluation every layer's draw is made with the
    key that was passed in: for each layer of the result, the array handed
    to the next stage (the next layer's index points, or the mean of the
    likelihood after the last layer) is the sample of that layer's
    marginal at [sample_key] itself. *)
Theorem layers_share_sample_key (self : scope) (flags : Dgp.FLAGS F) (x : ndarray F)
    (sample_key : key) (kwargs : list (string * kwdict F key))
    (ll : MultivariateNormalDiag F) (vgps : list (nat * SVGP F kernel inducing)) :
  Dgp.DeepGPModel_apply self flags x sample_key kwargs = Ok (ll, vgps) ->
  map fst vgps = [1; 2] /\
  forall layer v,
    Dgp.dict_get Nat.eqb vgps layer = Some v ->
    exists m s,
      marginal v = Ok m /\
      sample m sample_key Dgp.sample_shape = Ok s /\
      match Dgp.dict_get Nat.eqb vgps (S layer) with
      | Some next => svgp_index_points next = Np.expand_last s
      | None => diag_mean ll = s
      end.
Proof.
  intros Hrun. apply DeepGPModel_apply_inv in Hrun.
  destruct Hrun as (kf1 & iv1 & m1 & s1 & kf2 & iv2 & m2 & s2 & Hrun).
  cbv zeta in Hrun. destruct Hrun as (Hm1 & Hs1 & Hm2 & Hs2 & -> & Hll).
  split; [reflexivity |].
  intros layer v Hget.
  destruct layer as [| [| [| layer]]]; try discriminate Hget;
    injection Hget as <-.
  - exists m1, s1. split; [exact Hm1 |]. split; [exact Hs1 |]. reflexivity.
  - exists m2, s2. split; [exact Hm2 |]. split; [exact Hs2 |].
    cbn [Dgp.dict_get find fst Nat.eqb option_map].
    unfold Dgp.LikelihoodProvider_apply in Hll.
    rewrite NpFacts.index_last0_expand_last in Hll. cbn [Py.bind] in Hll.
    bind_inv Hll as sd Hsd. now injection Hll as <-.
Qed.

(** C5: both observation models put Gaussian noise of scale
    [softplus(stored parameter)] on the latent function.
    [MarginalObservationModel.apply] keeps the mean [m] of a TriL normal
    with scale [L] and returns the covariance [L L^T] with the squared
    noise scale added on the diagonal; [LikelihoodProvider.apply] returns
    a diagonal normal whose mean is the latent value [x[..., 0]] and whose
    scales all equal one times the noise scale. *)
Theorem observation_models_gaussian_noise
    (self_m self_l : scope) (pf : MultivariateNormalTriL F) (n : nat) (p_m : F)
    (x : ndarray F) (sh : list nat) (d : nat) (p_l : F) :
  shape (tril_scale pf) = [n; n] -> Np.wf (tril_scale pf) ->
  param self_m "observation_noise_scale" [] Regression.initializers_ones
    = Np.scalar p_m ->
  shape x = sh ++ [S d] -> sh <> [] ->
  param self_l "observation_noise_scale" [1] Dgp.observation_noise_scale_init
    = mkArr [1] [p_l] ->
  (exists C,
      Regression.MarginalObservationModel_apply self_m pf
        = Ok (mkFull (tril_mean pf) C) /\
      shape C = [n; n] /\
      forall i j, i < n -> j < n ->
        let LLt_ij :=
          fold_left add
            (map (fun k => mul (Np.get2 (tril_scale pf) i k)
                               (Np.get2 (tril_scale pf) j k)) (seq 0 n)) zero in
        Np.get2 C i j =
          if i =? j
          then add LLt_ij (mul (softplus p_m) (softplus p_m))
          else LLt_ij) /\
  (exists mean scale,
      Dgp.LikelihoodProvider_apply self_l x = Ok (mkDiag mean scale) /\
      Np.index_last0 x = Ok mean /\
      shape mean = sh /\
      shape scale = sh /\
      data scale = repeat (mul one (softplus p_l)) (Np.size sh)).
Proof.
  intros Hs Hwf Hpm Hx Hsh Hpl. split.
  - destruct (RegressionFacts.marginal_observation_model_spec
                self_m pf n p_m Hs Hwf Hpm) as [C [Hrun [HsC HC]]].
    exists C. split; [exact Hrun |]. split; [exact HsC |]. exact HC.
  - destruct (likelihood_provider_spec self_l x sh d p_l Hx Hsh Hpl)
      as [mean [Hidx [Hmean Hrun]]].
    exists mean, (Np.full sh (mul one (softplus p_l))).
    repeat split; assumption.
Qed.

(** The keyword dictionary of [create_model] names [fixed_locations],
    which the call of [InducingPointsProvider] in [DeepGPModel.apply]
    also passes explicitly: with these keywords the forward evaluation
    never returns. *)
Remark apply_with_create_model_kwargs (self : scope) (flags : Dgp.FLAGS F)
    (x : ndarray F) (sample_key : key) :
  let run :=
    Dgp.DeepGPModel_apply self flags x sample_key (Dgp.create_model_kwargs flags) in
  run = Raise (TypeError "got multiple values for keyword argument 'fixed_locations'")
  \/ exists e kw, RBFKernelProvider self x kw = Raise e /\ run = Raise e.
Proof.
  cbv zeta. unfold Dgp.DeepGPModel_apply.
  change (Py.range 1 3) with [1; 2]. cbn [Py.for_each].
  unfold Dgp.layer_body at 1 3. cbn [Dgp.loop_x Dgp.loop_mf Dgp.loop_vgps].
  set (kw1 := Dgp.call_kwargs _ _).
  assert (Hkw1 : exists kw, kw1 = Ok kw) by (eexists; reflexivity).
  destruct Hkw1 as [kw Hkw]. rewrite Hkw. cbn [Py.bind].
  destruct (RBFKernelProvider self x kw) as [kf | e] eqn:Hkf; cbn [Py.bind].
  - left. reflexivity.
  - right. exists e, kw. split; [exact Hkf | reflexivity].
Qed.

End Model.

Section Train.
Context {F key scope kernel inducing frame optimizer grads : Type}.
Context `{Scalar F} `{JaxNumeric F} `{JaxRandom F key}.
Context `{FlaxModule F key scope} `{Kernels F key scope kernel}.
Context `{InducingVariables F key scope kernel inducing}.
Context `{GaussianProcesses F key kernel inducing}.
Context `{FlaxStochastic F key scope frame}.
Context `{Training F scope optimizer grads}.
Variable flags : Dgp.FLAGS F.

Lemma world_eta (w : Dgp.world F frame) :
  Dgp.mkWorld (Dgp.prng_stack w) (Dgp.log w) = w.
Proof. destruct w; reflexivity. Qed.

(** The epoch loop, started on the key of epoch [a], runs the epochs of
    the closed form, appends their lines to the log and leaves the frame
    stack alone. *)
Lemma epoch_loop_closed (train_ds : Dgp.dataset F) (k0 : key) (len : nat) :
  forall (a : nat) (opt : optimizer) (w : Dgp.world F frame),
    Dgp.for_eachM (seq (S a) len) (Dgp.epoch_body flags train_ds)
      (opt, Dgp.epoch_key k0 a) w
    = (r <- Dgp.run_epochs flags train_ds k0 a len opt ;;
       Ok ((fst r, Dgp.epoch_key k0 (a + len)),
           Dgp.mkWorld (Dgp.prng_stack w) (Dgp.log w ++ snd r))).
Proof.
  induction len as [| len IH]; intros a opt w.
  - cbn [seq Dgp.for_eachM Dgp.run_epochs Py.bind fst snd]. unfold Dgp.ret.
    now rewrite Nat.add_0_r, app_nil_r, world_eta.
  - cbn [seq Dgp.for_eachM Dgp.run_epochs].
    unfold Dgp.bindM at 1. unfold Dgp.epoch_body at 1. cbn [fst snd].
    change (snd (split (Dgp.epoch_key k0 a))) with (Dgp.epoch_key k0 (S a)).
    unfold Dgp.bindM at 1. unfold Dgp.train_epoch.
    unfold Dgp.bindM at 1. unfold Dgp.lift.
    destruct (Dgp.train_step flags opt train_ds (Dgp.epoch_key k0 (S a)))
      as [[opt' loss] | e]; cbn [Py.bind fst snd]; [| reflexivity].
    unfold Dgp.bindM, Dgp.logging_info, Dgp.ret. cbn [Py.bind fst snd].
    rewrite IH. cbn [Dgp.prng_stack Dgp.log].
    destruct (Dgp.run_epochs flags train_ds k0 (S a) len opt')
      as [[opt'' lines] | e]; cbn [Py.bind fst snd]; [| reflexivity].
    rewrite <- app_assoc. cbn [app].
    now replace (a + S len) with (S a + len) by lia.
Qed.

(** The frame that [train] opens is untouched by [create_model], which
    opens and closes its own: both hand out the first key of a fresh
    frame on [PRNGKey(1)]. *)
Lemma train_closed_form (train_ds : Dgp.dataset F) (w : Dgp.world F frame) :
  Dgp.train flags train_ds w
  = (r <- Dgp.train_closed flags train_ds ;;
     Ok (fst r, Dgp.mkWorld (Dgp.prng_stack w) (Dgp.log w ++ snd r))).
Proof.
  unfold Dgp.train, Dgp.train_closed, Dgp.create_model.
  unfold Dgp.stochastic, Dgp.bindM, Dgp.make_rng, Dgp.lift, Dgp.ret.
  cbn [Dgp.prng_stack Dgp.log Py.bind fst snd tl].
  destruct (init_by_shape _ _ _) as [[out params] | e];
    cbn [Py.bind fst snd Dgp.prng_stack Dgp.log tl]; [| reflexivity].
  unfold Py.range. rewrite Nat.add_sub.
  change (fst (frame_make_rng (new_frame (PRNGKey 1))))
    with (Dgp.epoch_key (fst (frame_make_rng (new_frame (PRNGKey 1)))) 0).
  rewrite epoch_loop_closed. cbn [Dgp.prng_stack Dgp.log].
  change (Dgp.epoch_key (fst (frame_make_rng (new_frame (PRNGKey 1)))) 0)
    with (fst (frame_make_rng (new_frame (PRNGKey 1)))).
  destruct (Dgp.run_epochs _ _ _ _ _ _) as [[opt lines] | e];
    cbn [Py.bind fst snd Dgp.prng_stack Dgp.log tl]; reflexivity.
Qed.

End Train.
End DgpFacts.

(** ** The reference data set, in exact arithmetic *)

Module DatasetFacts.
#[local] Existing Instance Exact.scalar.

Lemma step_fun_cases (x : Q) :
  Dgp.step_fun x = if Qle_bool x 0 then (- 1)%Q else 1%Q.
Proof. reflexivity. Qed.

(** Away from 0 the step function is the sign. *)
Lemma step_fun_sign (x : Q) : ~ (x == 0)%Q -> (Dgp.step_fun x == Exact.sign x)%Q.
Proof.
  intros Hx. rewrite step_fun_cases. unfold Exact.sign.
  destruct x as [[| n | n] d]; unfold Qle_bool; cbn.
  - destruct Hx. reflexivity.
  - reflexivity.
  - reflexivity.
Qed.

Lemma step_fun_zero : Dgp.step_fun 0%Q = (- 1)%Q.
Proof. reflexivity. Qed.

Section Dataset.
Context {key : Type} `{JaxRandom Q key}.

Lemma grid_point_value (i : nat) :
  (Exact.grid_point i == - (3 # 2) + inject_Z (Z.of_nat i) * (1 # 8))%Q.
Proof.
  unfold Exact.grid_point.
  assert (Hstep : (((15 # 10) - (- 15 # 10)) / inject_Z (Z.of_nat 24) == (1 # 8))%Q)
    by reflexivity.
  assert (Hstart : ((- 15 # 10) == - (3 # 2))%Q) by reflexivity.
  now rewrite Hstep, Hstart.
Qed.

Lemma index_points_grid :
  Np.linspace (lit (- 15 # 10)) (lit (15 # 10)) 25
  = mkArr [25] (map Exact.grid_point (seq 0 25)).
Proof. reflexivity. Qed.

(** C7, as the code has it: the data set has the 25 evenly spaced index
    points [-1.5 + i/8] (a column), and each target is
    [step_fun(x) + 0.1 * noise], where [step_fun] is -1 on [x <= 0] and +1
    on [x > 0] and the noise is the standard normal draw at
    [PRNGKey(123)]: scale 0.1, variance 0.01.  The step is the sign of
    [x] at every index point but [x = 0] (the point of index 12), where
    the noiseless target is -1. *)
Theorem dataset_step_targets :
  let noise := normal (PRNGKey 123) [25] in
  shape noise = [25] -> length (data noise) = 25 ->
  exists ds,
    Dgp.get_datasets = Ok ds /\
    shape (Dgp.ds_index_points ds) = [25; 1] /\
    shape (Dgp.ds_y ds) = [25] /\
    (forall i, i < 25 ->
       let x := nth i (data (Dgp.ds_index_points ds)) 0%Q in
       (x == - (3 # 2) + inject_Z (Z.of_nat i) * (1 # 8))%Q /\
       nth i (data (Dgp.ds_y ds)) 0%Q
         = (Dgp.step_fun x + (1 # 10) * nth i (data noise) 0)%Q /\
       Dgp.step_fun x = (if Qle_bool x 0 then - 1 else 1)%Q /\
       (~ (x == 0)%Q -> (Dgp.step_fun x == Exact.sign x)%Q)) /\
    (nth 12 (data (Dgp.ds_index_points ds)) 0 == 0)%Q /\
    Dgp.step_fun (nth 12 (data (Dgp.ds_index_points ds)) 0%Q) = (- 1)%Q /\
    ((1 # 10) * (1 # 10) == (1 # 100))%Q.
Proof.
  intros noise Hshape Hlen.
  unfold Dgp.get_datasets. rewrite index_points_grid. cbn [shape data].
  fold noise.
  set (targets := map Dgp.step_fun (map Exact.grid_point (seq 0 25))).
  set (scaled := Np.np_map (mul (lit (1 # 10))) noise).
  assert (Hadd : Np.np_add (Np.array targets) scaled
                 = Ok (mkArr [25] (Np.zip_with add targets (data scaled)))).
  { unfold Np.np_add, Np.broadcast2.
    change (shape (Np.array targets)) with [25].
    change (shape scaled) with (shape noise). rewrite Hshape.
    rewrite NpFacts.broadcast_shapes_same.
    rewrite (NpFacts.pad_self [25]).
    rewrite !NpFacts.bcast_id; [reflexivity | |].
    - unfold scaled. cbn [data Np.np_map]. rewrite length_map, Hlen. reflexivity.
    - reflexivity. }
  rewrite Hadd. cbn [Py.bind].
  eexists. split; [reflexivity |].
  cbn [Dgp.ds_index_points Dgp.ds_y shape data Np.expand_last app].
  split; [reflexivity |]. split; [reflexivity |].
  split; [| split; [| split]].
  - intros i Hi.
    assert (Hx : nth i (map Exact.grid_point (seq 0 25)) 0%Q = Exact.grid_point i).
    { rewrite (nth_indep _ 0%Q (Exact.grid_point 0))
        by (rewrite length_map, length_seq; exact Hi).
      rewrite (map_nth Exact.grid_point (seq 0 25) 0 i), seq_nth by exact Hi.
      reflexivity. }
    rewrite Hx.
    split; [apply grid_point_value |].
    split; [| split; [reflexivity | apply step_fun_sign]].
    rewrite NpFacts.zip_with_nth.
    + cbn [add Exact.scalar]. f_equal.
      * unfold targets.
        rewrite (nth_indep _ 0%Q (Dgp.step_fun 0%Q))
          by (rewrite !length_map, length_seq; exact Hi).
        rewrite (map_nth Dgp.step_fun (map Exact.grid_point (seq 0 25)) 0%Q i).
        now rewrite Hx.
      * unfold scaled. cbn [data Np.np_map].
        rewrite (nth_indep _ 0%Q (mul (lit (1 # 10)) 0%Q))
          by (rewrite length_map, Hlen; exact Hi).
        rewrite (map_nth (mul (lit (1 # 10))) (data noise) 0%Q i).
        reflexivity.
    + unfold targets, scaled. cbn [data Np.np_map].
      rewrite !length_map, length_seq, Hlen. reflexivity.
    + unfold targets. rewrite !length_map, length_seq. exact Hi.
  - reflexivity.
  - reflexivity.
  - reflexivity.
Qed.

End Dataset.
End DatasetFacts.

(** ** Concrete runs *)

Module Runs.
#[local] Existing Instances Exact.scalar Toy.numeric Toy.random Toy.format.
#[local] Existing Instances Toy.flax_module Toy.kernels Toy.inducing_variables.
#[local] Existing Instances Toy.gaussian_processes Toy.flax_stochastic Toy.training.

(** [_diag_shift] on [[1, 2], [3, 4]] with [val = 1/2]. *)
Lemma diag_shift_spec_run :
  exists m',
    Regression._diag_shift Toy.mat22 (Np.scalar (1 # 2)%Q) = Ok m' /\
    Np.get2 m' 0 1 = 2%Q /\
    Np.get2 m' 1 1 = (4 + (1 # 2))%Q.
Proof.
  destruct (RegressionFacts.diag_shift_spec Toy.mat22 2 (1 # 2)%Q)
    as [m' [Hrun [_ [Hoff [Hdiag _]]]]]; [reflexivity | reflexivity |].
  exists m'. split; [exact Hrun |]. split.
  - rewrite Hoff by lia. reflexivity.
  - rewrite Hdiag by lia. reflexivity.
Defined.

(** The GP layer on two index points, with the default mean and jitter. *)
Lemma gp_layer_jitter_then_cholesky_run :
  exists K',
    Regression.GaussianProcessLayer_apply (mkArr [2; 1] [1%Q; 2%Q])
      (kernel_call (Kernels := Toy.kernels) tt) None Regression.default_jitter
      = Ok (mkTriL (mkArr [2] [0%Q; 0%Q]) (cholesky K')) /\
    Np.get2 K' 0 0 = (1 + (1 # 10000))%Q /\
    Np.get2 K' 0 1 = 1%Q.
Proof.
  destruct (RegressionFacts.gp_layer_jitter_then_cholesky
              (mkArr [2; 1] [1%Q; 2%Q]) (kernel_call (Kernels := Toy.kernels) tt) None
              Regression.default_jitter (Np.ones [2; 2]) (mkArr [2] [0%Q; 0%Q]) 2)
    as [K' [Hrun [_ [_ Hcells]]]]; [reflexivity | reflexivity | reflexivity | reflexivity |].
  exists K'. split; [exact Hrun |]. split.
  - rewrite Hcells by lia. reflexivity.
  - rewrite Hcells by lia. reflexivity.
Defined.

(** Both observation models, on a 2 x 2 scale and on a two-point latent
    sample. *)
Lemma observation_models_gaussian_noise_run :
  (exists C,
      Regression.MarginalObservationModel_apply tt
        (mkTriL (mkArr [2] [0%Q; 0%Q]) Toy.mat22)
        = Ok (mkFull (mkArr [2] [0%Q; 0%Q]) C) /\
      shape C = [2; 2]) /\
  (exists mean scale,
      Dgp.LikelihoodProvider_apply tt (mkArr [2; 1] [5%Q; 7%Q])
        = Ok (mkDiag mean scale) /\
      shape scale = [2]).
Proof.
  destruct (DgpFacts.observation_models_gaussian_noise tt tt
              (mkTriL (mkArr [2] [0%Q; 0%Q]) Toy.mat22) 2 1%Q
              (mkArr [2; 1] [5%Q; 7%Q]) [2] 0 (1 # 100)%Q)
    as [[C [HC [HsC _]]] [mean [scale [Hrun [_ [_ [Hs _]]]]]]];
    [reflexivity | reflexivity | reflexivity | reflexivity | discriminate
    | reflexivity |].
  split.
  - exists C. split; assumption.
  - exists mean, scale. split; assumption.
Defined.

(** Mean shifting on an object with a [mean] field. *)
Lemma mean_shift_duck_typed_run :
  exists p',
    Regression.MeanShiftDistribution_apply Toy.obj_normal (Np.scalar 1%Q) = Ok p' /\
    cls p' = "MultivariateNormalTriL" /\
    Regression.getattr p' "scale" = Ok Toy.mat22.
Proof.
  destruct (proj1 (RegressionFacts.mean_shift_duck_typed Toy.obj_normal (Np.scalar 1%Q))
              (mkArr [2] [1%Q; 2%Q]) (mkArr [2] [(1 + 1)%Q; (2 + 1)%Q]))
    as [p' [Hrun [Hcls [_ Hother]]]]; [reflexivity | reflexivity | reflexivity |].
  exists p'. split; [exact Hrun |]. split; [exact Hcls |].
  rewrite Hother by discriminate. reflexivity.
Defined.

(** C6, as the claim has it, fails: an object without [mean] is built
    without complaint; the lookup of [mean] fails when [apply] runs, and
    [apply] answers with the exception of its handler. *)
Lemma mean_shift_raises_at_run_time :
  Regression.getattr Toy.obj_no_mean "mean"
    = Raise (AttributeError "'Kernel' object has no attribute 'mean'") /\
  Regression.MeanShiftDistribution_apply Toy.obj_no_mean (Np.scalar 1%Q)
    = Raise (AttributeError "Kernel must have a `mean` field.").
Proof. split; reflexivity. Qed.

(** The data set with the toy noise. *)
Lemma dataset_step_targets_run :
  exists ds,
    Dgp.get_datasets = Ok ds /\
    shape (Dgp.ds_index_points ds) = [25; 1] /\
    nth 24 (data (Dgp.ds_y ds)) 0%Q = (1 + (1 # 10) * 0)%Q.
Proof.
  destruct (DatasetFacts.dataset_step_targets (key := nat))
    as [ds [Hrun [Hs [_ [Hpts _]]]]]; [reflexivity | reflexivity |].
  exists ds. split; [exact Hrun |]. split; [exact Hs |].
  destruct (Hpts 24 ltac:(lia)) as [_ [Hy _]].
  rewrite Hy. vm_compute in Hrun. injection Hrun as <-. reflexivity.
Defined.

(** C7, as the claim has it, fails at the index point 0: its target is
    [-1 + 0.1 * noise], not [sign(0) + 0.1 * noise]. *)
Lemma target_at_zero_is_not_sign :
  exists ds,
    Dgp.get_datasets = Ok ds /\
    let x := nth 12 (data (Dgp.ds_index_points ds)) 0%Q in
    let y := nth 12 (data (Dgp.ds_y ds)) 0%Q in
    let noise := nth 12 (data (normal (PRNGKey 123) [25])) 0%Q in
    (x == 0)%Q /\
    (y == - 1 + (1 # 10) * noise)%Q /\
    ~ (y == Exact.sign x + (1 # 10) * noise)%Q.
Proof.
  eexists. split; [reflexivity |]. cbv zeta.
  split; [reflexivity |]. split; [reflexivity |].
  intros Heq. vm_compute in Heq. discriminate Heq.
Qed.

(** The forward evaluation of the deep GP on the three-point batch
    returns. *)
Lemma toy_forward_returns :
  exists ell vgps,
    Dgp.DeepGPModel_apply tt Toy.flags (Dgp.ds_index_points Toy.batch) 5 []
      = Ok (ell, vgps).
Proof.
  destruct (Dgp.DeepGPModel_apply tt Toy.flags (Dgp.ds_index_points Toy.batch) 5 [])
    as [[ell vgps] | e] eqn:Hrun.
  - exists ell, vgps. reflexivity.
  - vm_compute in Hrun. discriminate Hrun.
Defined.


Lemma layer_mean_functions_run :
  exists ell vgps v1 v2,
    Dgp.DeepGPModel_apply tt Toy.flags (Dgp.ds_index_points Toy.batch) 5 []
      = Ok (ell, vgps) /\
    Dgp.dict_get Nat.eqb vgps 1 = Some v1 /\
    Dgp.dict_get Nat.eqb vgps 2 = Some v2 /\
    svgp_mean_fun v1 (mkArr [2; 1] [5%Q; 7%Q]) = Ok (mkArr [2] [0%Q; 0%Q]) /\
    svgp_mean_fun v2 (mkArr [2; 1] [5%Q; 7%Q]) = Ok (mkArr [2] [5%Q; 7%Q]).
Proof.
  destruct toy_forward_returns as [ell [vgps Hrun]].
  destruct (DgpFacts.layer_mean_functions _ _ _ _ _ _ _ Hrun)
    as [[v1 [Hv1 Hzero]] Hlater].
  destruct (DgpFacts.DeepGPModel_apply_inv _ _ _ _ _ _ _ Hrun)
    as (kf1 & iv1 & m1 & s1 & kf2 & iv2 & m2 & s2 & Hinv).
  cbv zeta in Hinv. destruct Hinv as (_ & _ & _ & _ & Hvgps & _).
  assert (Hv2 : exists v2, Dgp.dict_get Nat.eqb vgps 2 = Some v2)
    by (rewrite Hvgps; eexists; reflexivity).
  destruct Hv2 as [v2 Hv2].
  exists ell, vgps, v1, v2. split; [exact Hrun |].
  split; [exact Hv1 |]. split; [exact Hv2 |]. split.
  - rewrite Hzero. reflexivity.
  - destruct (Hlater 2 v2 Hv2 ltac:(discriminate)) as [Hfeat _].
    rewrite Hfeat. reflexivity.
Defined.

Lemma layer_index_points_run :
  exists ell vgps v2,
    Dgp.DeepGPModel_apply tt Toy.flags (Dgp.ds_index_points Toy.batch) 5 []
      = Ok (ell, vgps) /\
    Dgp.dict_get Nat.eqb vgps 2 = Some v2 /\
    shape (svgp_index_points v2) = [17; 3; 1].
Proof.
  destruct toy_forward_returns as [ell [vgps Hrun]].
  destruct (DgpFacts.layer_index_points _ _ _ _ _ _ _ Hrun) as [_ [Hlater _]].
  destruct (DgpFacts.DeepGPModel_apply_inv _ _ _ _ _ _ _ Hrun)
    as (kf1 & iv1 & m1 & s1 & kf2 & iv2 & m2 & s2 & Hinv).
  cbv zeta in Hinv. destruct Hinv as (_ & _ & _ & _ & Hvgps & _).
  assert (Hv2 : exists v2, Dgp.dict_get Nat.eqb vgps 2 = Some v2)
    by (rewrite Hvgps; eexists; reflexivity).
  destruct Hv2 as [v2 Hv2].
  exists ell, vgps, v2. split; [exact Hrun |]. split; [exact Hv2 |].
  destruct (Hlater 2 v2 Hv2 ltac:(discriminate))
    as (prev & m & s & Hprev & Hm & Hs & _ & Hshape & _).
  rewrite Hshape. rewrite Hvgps in Hprev. injection Hprev as <-.
  vm_compute in Hm. injection Hm as <-.
  vm_compute in Hs. injection Hs as <-. reflexivity.
Defined.

Lemma layers_share_sample_key_run :
  exists ell vgps,
    Dgp.DeepGPModel_apply tt Toy.flags (Dgp.ds_index_points Toy.batch) 5 []
      = Ok (ell, vgps) /\
    forall layer v,
      Dgp.dict_get Nat.eqb vgps layer = Some v ->
      exists m, marginal v = Ok m /\ Py.is_ok (sample m 5 [17]) = true.
Proof.
  destruct toy_forward_returns as [ell [vgps Hrun]].
  destruct (DgpFacts.layers_share_sample_key _ _ _ _ _ _ _ Hrun) as [_ Hkey].
  exists ell, vgps. split; [exact Hrun |].
  intros layer v Hv. destruct (Hkey layer v Hv) as (m & s & Hm & Hs & _).
  exists m. split; [exact Hm |].
  change (sample m 5 [17]) with (sample m 5 Dgp.sample_shape).
  now rewrite Hs.
Defined.

(** Three epochs of the training loop from key 7: the keys are 15, 31
    and 63, and three lines are logged. *)
Example epoch_loop_run :
  Dgp.for_eachM (Py.range 1 4) (Dgp.epoch_body Toy.flags Toy.batch) (tt, 7)
    (Dgp.mkWorld (frame := nat * nat) [] [])
  = Ok ((tt, 63),
        Dgp.mkWorld []
          [(1, Np.scalar (- - 3 + (0 + (1 # 2) + (1 # 2)))%Q);
           (2, Np.scalar (- - 3 + (0 + (1 # 2) + (1 # 2)))%Q);
           (3, Np.scalar (- - 3 + (0 + (1 # 2) + (1 # 2)))%Q)]).
Proof. vm_compute. reflexivity. Qed.

End Runs.

(** ** Packing and unpacking parameters *)

Module PackingFacts.
Section Lists.
Context {F : Type} `{Scalar F}.

(** Splitting a buffer at the running totals of the lengths of the pieces
    it is made of gives the pieces back, and what follows them as a last
    piece. *)
Lemma split_pieces (ls : list (list F)) (post : list F) :
  forall (pre : list F),
    let d := pre ++ concat ls ++ post in
    Np.split_from [] (length d) d (length pre)
      (Np.cumsum_from (length pre) (map (@length F) ls))
    = Ok (map Np.vec ls ++ [Np.vec post]).
Proof.
  induction ls as [| x ls IH]; intros pre d; cbn [map Np.cumsum_from Np.split_from app].
  - unfold Np.slice_rows, Np.vec. cbn [Np.size fold_right].
    subst d. cbn [concat app].
    rewrite !Nat.mul_1_r, length_app, Nat.add_comm, Nat.add_sub.
    rewrite skipn_app, Nat.sub_diag, skipn_all. cbn [app skipn].
    now rewrite firstn_all.
  - assert (Hle : (length pre <=? length pre + length x) = true)
      by (apply Nat.leb_le; lia).
    assert (Hin : (length pre + length x <=? length d) = true).
    { apply Nat.leb_le. subst d. cbn [concat]. rewrite !length_app. lia. }
    rewrite Hle, Hin. cbn [andb].
    assert (Hd : d = (pre ++ x) ++ concat ls ++ post).
    { subst d. cbn [concat]. now rewrite <- !app_assoc. }
    replace (length pre + length x) with (length (pre ++ x)) by apply length_app.
    rewrite Hd at 1 2. rewrite (IH (pre ++ x)). cbn [Py.bind].
    do 2 f_equal.
    unfold Np.slice_rows, Np.vec. cbn [Np.size fold_right].
    rewrite !Nat.mul_1_r, length_app, Nat.add_comm, Nat.add_sub.
    subst d. rewrite skipn_app, Nat.sub_diag, skipn_all. cbn [app skipn concat].
    rewrite <- app_assoc, firstn_app, Nat.sub_diag, firstn_all. cbn [firstn].
    now rewrite app_nil_r.
Qed.

Lemma reshape_pieces (ls : list (ndarray F)) (extra : ndarray F) :
  Forall Np.wf ls ->
  Np.map_result (fun xs => Np.reshape (fst xs) (snd xs))
    (combine (map Np.vec (map (fun a => data a) ls) ++ [extra])
             (map (fun a => shape a) ls))
  = Ok ls.
Proof.
  induction 1 as [| x ls Hx _ IH]; cbn [map app combine Np.map_result]; [reflexivity |].
  unfold Np.reshape at 1. cbn [fst snd Np.vec shape data Np.size fold_right].
  unfold Np.wf in Hx. rewrite Nat.mul_1_r, Hx, Nat.eqb_refl. cbn [Py.bind].
  rewrite IH. cbn [Py.bind]. now rewrite NpFacts.mkArr_eta.
Qed.

Lemma concatenate_ravel (ls : list (ndarray F)) :
  ls <> [] ->
  Np.concatenate (map Np.ravel_all ls)
  = Ok (mkArr [list_sum (map (fun a => Np.size (shape a)) ls)]
          (concat (map (fun a => data a) ls))).
Proof.
  intros Hne. destruct ls as [| x ls]; [contradiction |].
  unfold Np.concatenate. cbn [map Np.ravel_all shape].
  assert (Hall : forallb (fun y : ndarray F =>
                    match shape y with
                    | [] => false
                    | _ :: t => Np.shape_eqb t []
                    end)
                   (Np.ravel_all x :: map Np.ravel_all ls) = true).
  { apply forallb_forall. intros y [<- | Hy]; [reflexivity |].
    apply in_map_iff in Hy. destruct Hy as [a [<- _]]. reflexivity. }
  change (mkArr [Np.size (shape x)] (data x)) with (Np.ravel_all x).
  rewrite Hall.
  cbn [map hd shape data Np.ravel_all list_sum flat_map concat].
  rewrite map_map, flat_map_concat_map, map_map. reflexivity.
Qed.

Lemma wf_sizes (ls : list (ndarray F)) :
  Forall Np.wf ls ->
  map (fun a => Np.size (shape a)) ls = map (@length F) (map (fun a => data a) ls).
Proof.
  induction 1 as [| x ls Hx _ IH]; cbn [map]; [reflexivity |].
  unfold Np.wf in Hx. now rewrite Hx, IH.
Qed.

Lemma length_concat_sizes (ds : list (list F)) :
  length (concat ds) = list_sum (map (@length F) ds).
Proof.
  induction ds as [| x ds IH]; [reflexivity |].
  cbn [concat map]. change (list_sum (length x :: map (@length F) ds))
    with (length x + list_sum (map (@length F) ds)).
  now rewrite length_app, IH.
Qed.

(** A buffer as long as the sum of some sizes is the concatenation of
    pieces of these sizes. *)
Lemma cut_by_sizes (sizes : list nat) :
  forall d : list F,
    length d = list_sum sizes ->
    exists ds, d = concat ds /\ map (@length F) ds = sizes.
Proof.
  induction sizes as [| n sizes IH]; intros d Hd;
    change (list_sum (n :: sizes)) with (n + list_sum sizes) in Hd || simpl in Hd.
  - exists []. split; [| reflexivity].
    now apply length_zero_iff_nil in Hd.
  - destruct (IH (skipn n d)) as [ds [Hcat Hlen]].
    { rewrite length_skipn. lia. }
    exists (firstn n d :: ds). split.
    + cbn [concat]. rewrite <- Hcat. now rewrite firstn_skipn.
    + cbn [map]. rewrite Hlen, length_firstn. f_equal. lia.
Qed.

End Lists.

Section Trees.
Context {F params treedef : Type}.
Context `{Scalar F} `{JaxTree F params treedef}.

(** Splitting the packed array of well-formed leaves and reshaping the
    pieces gives the leaves back. *)
Lemma unpack_leaves {B : Type} (ls : list (ndarray F)) (post : list F) (n : nat)
    (k : list (ndarray F) -> result B) :
  Forall Np.wf ls ->
  n = length (concat (map (fun a => data a) ls) ++ post) ->
  (value_flat <- Np.split (mkArr [n] (concat (map (fun a => data a) ls) ++ post))
                   (Np.cumsum (map (fun a => Np.size (shape a)) ls)) ;;
   value_flat <- Np.map_result (fun xs => Np.reshape (fst xs) (snd xs))
                   (combine value_flat (map (fun a => shape a) ls)) ;;
   k value_flat)
  = k ls.
Proof.
  intros Hwf Hn. unfold Np.split, Np.cumsum. cbn [shape data].
  rewrite (wf_sizes ls Hwf).
  pose proof (split_pieces (map (fun a => data a) ls) post []) as Hsplit.
  cbv zeta in Hsplit. cbn [app length] in Hsplit.
  rewrite Hn, Hsplit. cbn [Py.bind].
  now rewrite reshape_pieces.
Qed.

Lemma sizes_of_shapes (l1 l2 : list (ndarray F)) :
  map (fun a => shape a) l1 = map (fun a => shape a) l2 ->
  map (fun a => Np.size (shape a)) l1 = map (fun a => Np.size (shape a)) l2.
Proof.
  intros Hs.
  rewrite <- (map_map (fun a : ndarray F => shape a) Np.size l1).
  rewrite <- (map_map (fun a : ndarray F => shape a) Np.size l2).
  now rewrite Hs.
Qed.

(** Leaves with given shapes on given buffers of the right lengths. *)
Lemma rebuild_leaves (shapes : list (list nat)) :
  forall ds : list (list F),
    map (@length F) ds = map Np.size shapes ->
    exists ls : list (ndarray F),
      map (fun a => shape a) ls = shapes /\
      map (fun a => data a) ls = ds /\
      Forall Np.wf ls.
Proof.
  induction shapes as [| sh shapes IH]; intros [| dat ds] Hlen; try discriminate Hlen.
  - exists []. repeat split. constructor.
  - cbn [map] in Hlen. injection Hlen as Hd Hrest.
    destruct (IH ds Hrest) as [ls [Hs [Hdd Hwf]]].
    exists (mkArr sh dat :: ls). cbn [map shape data].
    rewrite Hs, Hdd. repeat split. constructor; [exact Hd | exact Hwf].
Qed.

(** X7: packing then unpacking is the identity on parameter trees.  For
    parameters with the tree definition and leaf shapes of the model the
    two functions were built for, [array_from_par] returns one flat array
    holding every leaf, and [par_from_array] on it returns the parameters. *)
Theorem pack_then_unpack (model prm : params) :
  (forall q, tree_unflatten (snd (tree_flatten q)) (fst (tree_flatten q)) = q) ->
  snd (tree_flatten prm) = snd (tree_flatten model) ->
  map (fun a => shape a) (fst (tree_flatten prm))
    = map (fun a => shape a) (fst (tree_flatten model)) ->
  Forall Np.wf (fst (tree_flatten prm)) ->
  fst (tree_flatten prm) <> [] ->
  exists arr,
    snd (Regression.build_par_pack_and_unpack model) prm = Ok arr /\
    shape arr
      = [list_sum (map (fun a => Np.size (shape a)) (fst (tree_flatten model)))] /\
    data arr = concat (map (fun a => data a) (fst (tree_flatten prm))) /\
    fst (Regression.build_par_pack_and_unpack model) arr = Ok prm.
Proof.
  intros Hlaw Htd Hshapes Hwf Hne.
  specialize (Hlaw prm).
  destruct (tree_flatten model) as [mls mtd] eqn:Hm.
  destruct (tree_flatten prm) as [ls td] eqn:Hp.
  cbn [fst snd] in *. subst td.
  unfold Regression.build_par_pack_and_unpack. rewrite Hm.
  cbv beta iota zeta. cbn [fst snd]. rewrite Hp.
  rewrite (concatenate_ravel ls Hne).
  eexists. split; [reflexivity |]. cbn [shape data].
  split; [now rewrite (sizes_of_shapes ls mls Hshapes) |].
  split; [reflexivity |].
  rewrite <- Hshapes, <- (sizes_of_shapes ls mls Hshapes).
  rewrite <- (app_nil_r (concat (map (fun a => data a) ls))).
  rewrite (unpack_leaves ls [] _ _ Hwf).
  - now rewrite Hlaw.
  - rewrite app_nil_r, length_concat_sizes, <- (wf_sizes ls Hwf). reflexivity.
Qed.

(** What [par_from_array] returns on a buffer that starts with as many
    elements as the model has. *)
Lemma unpack_buffer (model : params) (d : list F) :
  length d
    = list_sum (map (fun a => Np.size (shape a)) (fst (tree_flatten model))) ->
  exists ls,
    map (fun a => shape a) ls = map (fun a => shape a) (fst (tree_flatten model)) /\
    concat (map (fun a => data a) ls) = d /\
    forall post,
      fst (Regression.build_par_pack_and_unpack model) (Np.vec (d ++ post))
      = Ok (tree_unflatten (snd (tree_flatten model)) ls).
Proof.
  intros Hlen. unfold Regression.build_par_pack_and_unpack.
  destruct (tree_flatten model) as [mls mtd]. cbn [fst snd] in *.
  destruct (cut_by_sizes _ d Hlen) as [ds [Hcat Hds]].
  destruct (rebuild_leaves (map (fun a => shape a) mls) ds) as [ls [Hs [Hd Hwf]]].
  { rewrite Hds, map_map. reflexivity. }
  exists ls. split; [exact Hs |]. split; [now rewrite Hd |].
  intros post. cbv beta iota zeta. cbn [fst snd].
  rewrite <- Hs, <- (sizes_of_shapes ls mls Hs).
  unfold Np.vec. rewrite Hcat, <- Hd.
  rewrite (unpack_leaves ls post _ _ Hwf eq_refl). reflexivity.
Qed.

(** X8: unpacking then packing is the identity on flat arrays of the
    model's size. *)
Theorem unpack_then_pack (model : params) (arr : ndarray F) :
  (forall ls,
      map (fun a => shape a) ls = map (fun a => shape a) (fst (tree_flatten model)) ->
      tree_flatten (tree_unflatten (snd (tree_flatten model)) ls)
        = (ls, snd (tree_flatten model))) ->
  fst (tree_flatten model) <> [] ->
  shape arr
    = [list_sum (map (fun a => Np.size (shape a)) (fst (tree_flatten model)))] ->
  Np.wf arr ->
  exists prm,
    fst (Regression.build_par_pack_and_unpack model) arr = Ok prm /\
    snd (Regression.build_par_pack_and_unpack model) prm = Ok arr.
Proof.
  intros Hlaw Hne Hshape Hwf.
  assert (Hlen : length (data arr)
                 = list_sum (map (fun a => Np.size (shape a)) (fst (tree_flatten model)))).
  { unfold Np.wf in Hwf. rewrite Hwf, Hshape. cbn [Np.size fold_right]. lia. }
  destruct (unpack_buffer model (data arr) Hlen) as [ls [Hs [Hd Hrun]]].
  specialize (Hrun []).
  assert (Harr : Np.vec (data arr ++ []) = arr).
  { unfold Np.vec. rewrite app_nil_r, Hlen, <- Hshape. apply NpFacts.mkArr_eta. }
  rewrite Harr in Hrun.
  exists (tree_unflatten (snd (tree_flatten model)) ls). split; [exact Hrun |].
  specialize (Hlaw ls Hs).
  unfold Regression.build_par_pack_and_unpack.
  destruct (tree_flatten model) as [mls mtd]. cbn [fst snd] in *.
  cbv beta iota zeta. cbn [fst snd]. rewrite Hlaw. cbv beta iota.
  assert (Hls : ls <> []).
  { intros ->. destruct mls; [now apply Hne | discriminate Hs]. }
  rewrite (concatenate_ravel ls Hls), Hd, (sizes_of_shapes ls mls Hs), <- Hshape.
  now rewrite NpFacts.mkArr_eta.
Qed.

(** X9: [par_from_array] reads the first [total] elements of its argument
    and nothing else: it returns on every one-axis array that has at least
    that many, and the elements that follow them do not change the result. *)
Theorem unpack_ignores_tail (model : params) (d post : list F) :
  length d
    = list_sum (map (fun a => Np.size (shape a)) (fst (tree_flatten model))) ->
  exists prm,
    fst (Regression.build_par_pack_and_unpack model) (Np.vec d) = Ok prm /\
    fst (Regression.build_par_pack_and_unpack model) (Np.vec (d ++ post)) = Ok prm.
Proof.
  intros Hlen.
  destruct (unpack_buffer model d Hlen) as [ls [_ [_ Hrun]]].
  exists (tree_unflatten (snd (tree_flatten model)) ls). split.
  - rewrite <- (Hrun []). now rewrite app_nil_r.
  - apply Hrun.
Qed.

Lemma cumsum_last (l : list nat) :
  forall acc, l <> [] -> In (acc + list_sum l) (Np.cumsum_from acc l).
Proof.
  induction l as [| x l IH]; intros acc Hne; [contradiction |].
  cbn [Np.cumsum_from].
  change (list_sum (x :: l)) with (x + list_sum l).
  destruct l as [| y l].
  - left. cbn. lia.
  - right. rewrite Nat.add_assoc. apply IH. discriminate.
Qed.

Lemma split_out_of_range (tail : list nat) (n : nat) (d : list F) (indices : list nat) :
  forall start,
    (exists i, In i indices /\ n < i) ->
    Np.split_from tail n d start indices
    = Raise (TypeError "slice limits must be in order and within the operand").
Proof.
  induction indices as [| i indices IH]; intros start [j [Hin Hj]];
    [contradiction |].
  cbn [Np.split_from].
  destruct ((start <=? i) && (i <=? n)) eqn:Hchk; [| reflexivity].
  apply andb_prop in Hchk. destruct Hchk as [_ Hi]. apply Nat.leb_le in Hi.
  destruct Hin as [-> | Hin]; [lia |].
  rewrite (IH i); [reflexivity | exists j; split; assumption].
Qed.

(** X10: the failures of the two functions.  A one-axis array with fewer
    elements than the model has is refused by [par_from_array]: it raises
    and returns no parameters; and parameters without leaves are refused
    by [array_from_par], since there is nothing to concatenate. *)
Theorem pack_unpack_failures (model : params) :
  (forall arr n,
      fst (tree_flatten model) <> [] ->
      shape arr = [n] ->
      n < list_sum (map (fun a => Np.size (shape a)) (fst (tree_flatten model))) ->
      exists e, fst (Regression.build_par_pack_and_unpack model) arr = Raise e) /\
  (forall prm,
      fst (tree_flatten prm) = [] ->
      snd (Regression.build_par_pack_and_unpack model) prm
      = Raise (ValueError "need at least one array to concatenate")).
Proof.
  split.
  - intros arr n Hne Hshape Hn.
    unfold Regression.build_par_pack_and_unpack.
    destruct (tree_flatten model) as [mls mtd]. cbn [fst snd] in *.
    cbv beta iota zeta. cbn [fst snd].
    unfold Np.split. rewrite Hshape.
    rewrite split_out_of_range; [eexists; reflexivity |].
    exists (0 + list_sum (map (fun a => Np.size (shape a)) mls)). split.
    + apply cumsum_last. destruct mls; [contradiction | discriminate].
    + exact Hn.
  - intros prm Hprm. unfold Regression.build_par_pack_and_unpack.
    destruct (tree_flatten model) as [mls mtd].
    cbv beta iota zeta. cbn [fst snd].
    destruct (tree_flatten prm) as [ls td]. cbn [fst snd] in *. subst ls.
    reflexivity.
Qed.

End Trees.
End PackingFacts.

(** ** More on basic_regression2.py *)

Module RegressionMore.
Section Model.
Context {F key scope kernel : Type}.
Context `{Scalar F} `{JaxNumeric F} `{PyFormat F}.
Context `{FlaxModule F key scope} `{Kernels F key scope kernel}.

(** X1: [_diag_shift] is for matrices.  A 0-d array has no last axis and
    is refused with [IndexError]; an array with three axes or more is
    refused by [jnp.diag] with [ValueError]. *)
Theorem diag_shift_rank_errors (mat val : ndarray F) :
  (shape mat = [] ->
   Regression._diag_shift mat val = Raise (IndexError "tuple index out of range")) /\
  (3 <= length (shape mat) ->
   Regression._diag_shift mat val = Raise (ValueError "diag input must be 1d or 2d")).
Proof.
  unfold Regression._diag_shift, Np.shape_last, Np.diag. split.
  - intros ->. reflexivity.
  - intros Hrank.
    destruct (shape mat) as [| a [| b [| c t]]] eqn:Hs; cbn [length] in Hrank; try lia.
    destruct (rev (a :: b :: c :: t)) as [| n r] eqn:Hrev.
    + apply (f_equal (@length nat)) in Hrev.
      rewrite length_rev in Hrev. discriminate Hrev.
    + reflexivity.
Qed.

(** X2: two shifts compose.  Shifting the diagonal of a square matrix by
    [a] and then by [b] succeeds, leaves the cells off the diagonal as they
    were and adds [a] and then [b] to each diagonal cell. *)
Theorem diag_shift_twice (mat : ndarray F) (n : nat) (a b : F) :
  shape mat = [n; n] -> Np.wf mat ->
  exists m2,
    (m1 <- Regression._diag_shift mat (Np.scalar a) ;;
     Regression._diag_shift m1 (Np.scalar b)) = Ok m2 /\
    shape m2 = [n; n] /\
    forall i j, i < n -> j < n ->
      Np.get2 m2 i j =
        if i =? j then add (add (Np.get2 mat i i) a) b else Np.get2 mat i j.
Proof.
  intros Hs Hwf.
  destruct (RegressionFacts.diag_shift_cells mat n a Hs Hwf)
    as [m1 [Hrun1 [Hs1 [Hwf1 Hcells1]]]].
  destruct (RegressionFacts.diag_shift_cells m1 n b Hs1 Hwf1)
    as [m2 [Hrun2 [Hs2 [_ Hcells2]]]].
  exists m2. rewrite Hrun1. cbn [Py.bind].
  split; [exact Hrun2 |]. split; [exact Hs2 |].
  intros i j Hi Hj. rewrite (Hcells2 i j Hi Hj).
  destruct (Nat.eqb_spec i j) as [-> | Hij].
  - rewrite (Hcells1 j j Hj Hj). now rewrite Nat.eqb_refl.
  - rewrite (Hcells1 i j Hi Hj).
    destruct (Nat.eqb_spec i j); [contradiction | reflexivity].
Qed.

(** X3: where the product of scalars is commutative, the covariance that
    [MarginalObservationModel.apply] returns is symmetric. *)
Theorem marginal_covariance_symmetric (self : scope)
    (pf : MultivariateNormalTriL F) (n : nat) (p : F) :
  (forall a b : F, mul a b = mul b a) ->
  shape (tril_scale pf) = [n; n] -> Np.wf (tril_scale pf) ->
  param self "observation_noise_scale" [] Regression.initializers_ones = Np.scalar p ->
  exists C,
    Regression.MarginalObservationModel_apply self pf = Ok (mkFull (tril_mean pf) C) /\
    forall i j, i < n -> j < n -> Np.get2 C i j = Np.get2 C j i.
Proof.
  intros Hcomm Hs Hwf Hp.
  destruct (RegressionFacts.marginal_observation_model_spec self pf n p Hs Hwf Hp)
    as [C [Hrun [_ HC]]].
  cbv zeta in HC.
  exists C. split; [exact Hrun |].
  intros i j Hi Hj. rewrite (HC i j Hi Hj), (HC j i Hj Hi).
  assert (Hsum : fold_left add
                   (map (fun l => mul (Np.get2 (tril_scale pf) i l)
                                      (Np.get2 (tril_scale pf) j l)) (seq 0 n)) zero
                 = fold_left add
                     (map (fun l => mul (Np.get2 (tril_scale pf) j l)
                                        (Np.get2 (tril_scale pf) i l)) (seq 0 n)) zero).
  { f_equal. apply map_ext. intros l. apply Hcomm. }
  rewrite Hsum, (Nat.eqb_sym j i).
  destruct (Nat.eqb_spec i j) as [-> | Hij]; reflexivity.
Qed.

(** X4: [GPModel.apply] composes its three parts.  With a kernel matrix
    [K] of size [n] and a Cholesky routine that keeps the shape of its
    argument, the result is the full-covariance normal with zero mean of
    shape [x.shape[:-1]] and covariance [S S^T + noise^2 I], where [S] is
    the factor of [K + 1e-4 I] and [noise] the softplus of the parameter
    of the submodule [observation_model]. *)
Theorem gp_model_composition (self : scope) (x K : ndarray F) (kf : kernel)
    (n : nat) (p : F) :
  (forall a, shape (cholesky a) = shape a /\ length (data (cholesky a)) = length (data a)) ->
  RBFKernelProvider self x [("name", KwStr "kernel_fun")] = Ok kf ->
  kernel_call kf x = Ok K -> shape K = [n; n] -> Np.wf K ->
  param (child self "observation_model") "observation_noise_scale" []
    Regression.initializers_ones = Np.scalar p ->
  exists K' C,
    Regression._diag_shift K (Np.scalar (lit (1 # 10000))) = Ok K' /\
    Regression.GPModel_apply self x
      = Ok (mkFull (Np.zeros (removelast (shape x))) C) /\
    shape C = [n; n] /\
    forall i j, i < n -> j < n ->
      let S := cholesky K' in
      let SSt_ij :=
        fold_left add
          (map (fun l => mul (Np.get2 S i l) (Np.get2 S j l)) (seq 0 n)) zero in
      Np.get2 C i j =
        if i =? j then add SSt_ij (mul (softplus p) (softplus p)) else SSt_ij.
Proof.
  intros Hchol Hkf HK Hs Hwf Hp.
  destruct (RegressionFacts.diag_shift_cells K n Regression.default_jitter Hs Hwf)
    as [K' [Hshift [HsK' [HwfK' _]]]].
  destruct (Hchol K') as [HsS HlS].
  set (pf := mkTriL (Np.zeros (Np.shape_init x)) (cholesky K')).
  assert (HsPf : shape (tril_scale pf) = [n; n]) by (cbn [pf tril_scale]; congruence).
  assert (HwfPf : Np.wf (tril_scale pf)).
  { unfold Np.wf in *. cbn [pf tril_scale]. now rewrite HlS, HsS. }
  destruct (RegressionFacts.marginal_observation_model_spec
              (child self "observation_model") pf n p HsPf HwfPf Hp)
    as [C [Hobs [HsC HC]]].
  exists K', C. split; [exact Hshift |]. split; [| split; [exact HsC | exact HC]].
  unfold Regression.GPModel_apply. rewrite Hkf. cbn [Py.bind].
  unfold Regression.GaussianProcessLayer_apply. cbn [Py.bind].
  rewrite HK. cbn [Py.bind]. rewrite Hshift. cbn [Py.bind]. exact Hobs.
Qed.

(** *** Mean shifting *)

Lemma np_add_raises_shape_error (a b : ndarray F) (e : exn) :
  Np.np_add a b = Raise e -> exists msg, e = ShapeError msg.
Proof.
  unfold Np.np_add, Np.broadcast2.
  destruct (Np.broadcast_shapes (shape a) (shape b)); intros He; [discriminate |].
  injection He as <-. eexists. reflexivity.
Qed.

(** X5: the handler of [MeanShiftDistribution.apply] catches attribute
    errors only.  When the object has [replace] and [mean] but [shift]
    does not broadcast against the mean, the error of the addition comes
    out as it is, not as the complaint about a missing [mean] field. *)
Theorem mean_shift_broadcast_error (p : pyobj F) (shift m : ndarray F) (e : exn) :
  is_dataclass p = true ->
  Regression.getattr p "mean" = Ok m ->
  Np.np_add m shift = Raise e ->
  Regression.MeanShiftDistribution_apply p shift = Raise e /\
  exists msg, e = ShapeError msg.
Proof.
  intros Hdc Hm He.
  destruct (np_add_raises_shape_error m shift e He) as [msg ->].
  split; [| eexists; reflexivity].
  unfold Regression.MeanShiftDistribution_apply, Regression.get_replace.
  rewrite Hdc. cbn [Py.bind]. rewrite Hm. cbn [Py.bind]. rewrite He. reflexivity.
Qed.

Lemma mean_shift_ok_inv (p p' : pyobj F) (shift : ndarray F) :
  Regression.MeanShiftDistribution_apply p shift = Ok p' ->
  exists m s,
    is_dataclass p = true /\
    Regression.getattr p "mean" = Ok m /\
    Np.np_add m shift = Ok s /\
    Regression.replace p "mean" s = Ok p'.
Proof.
  unfold Regression.MeanShiftDistribution_apply, Regression.get_replace.
  destruct (is_dataclass p); cbn [Py.bind try_except_AttributeError];
    [| discriminate].
  destruct (Regression.getattr p "mean") as [m | e] eqn:Hm; cbn [Py.bind].
  - destruct (Np.np_add m shift) as [s | e] eqn:Hs; cbn [Py.bind].
    + destruct (Regression.replace p "mean" s) as [q | e] eqn:Hr;
        cbn [try_except_AttributeError].
      * intros Hq. injection Hq as <-. exists m, s. repeat split; assumption.
      * destruct e; discriminate.
    + destruct e; discriminate.
  - destruct e; discriminate.
Qed.

(** X6: a shifted object can be shifted again.  The result of a shift has
    the class and the field names of the object it was made from, in the
    same order, and a second shift of it never reports a missing field: it
    succeeds or fails with the shape error of the addition. *)
Theorem mean_shift_again (p p' : pyobj F) (shift : ndarray F) :
  Regression.MeanShiftDistribution_apply p shift = Ok p' ->
  cls p' = cls p /\
  map fst (fields p') = map fst (fields p) /\
  forall shift2,
    (exists p'', Regression.MeanShiftDistribution_apply p' shift2 = Ok p'') \/
    (exists msg, Regression.MeanShiftDistribution_apply p' shift2
                 = Raise (ShapeError msg)).
Proof.
  intros Hrun.
  destruct (mean_shift_ok_inv p p' shift Hrun) as (m & s & Hdc & Hm & Hs & Hr).
  unfold Regression.replace in Hr.
  destruct (existsb _ (fields p)) eqn:Hex; [| discriminate].
  injection Hr as <-. cbn [cls fields].
  split; [reflexivity |]. split.
  - rewrite map_map. apply map_ext. intros [k w]. cbn [fst].
    destruct (String.eqb_spec k "mean") as [-> | _]; reflexivity.
  - intros shift2.
    destruct (RegressionFacts.getattr_ok_inv p "mean" m Hm) as [kv [Hfind _]].
    set (p' := mkObj (cls p)
                 (map (fun kv => if String.eqb (fst kv) "mean" then ("mean", s) else kv)
                      (fields p))
                 (is_dataclass p)).
    assert (Hm' : Regression.getattr p' "mean" = Ok s).
    { unfold Regression.getattr. cbn [p' fields].
      now rewrite (RegressionFacts.find_replace_same "mean" s (fields p) kv Hfind). }
    assert (Hex' : existsb (fun kv => String.eqb (fst kv) "mean") (fields p') = true).
    { unfold Regression.getattr in Hm'.
      destruct (find _ (fields p')) as [kv' |] eqn:Hf; [| discriminate].
      apply existsb_exists. exists kv'. apply find_some in Hf. exact Hf. }
    unfold Regression.MeanShiftDistribution_apply, Regression.get_replace.
    change (is_dataclass p') with (is_dataclass p). rewrite Hdc. cbn [Py.bind].
    rewrite Hm'. cbn [Py.bind].
    destruct (Np.np_add s shift2) as [s2 | e] eqn:Hs2; cbn [Py.bind].
    + left. unfold Regression.replace. rewrite Hex'. eexists. reflexivity.
    + right. destruct (np_add_raises_shape_error s shift2 e Hs2) as [msg ->].
      exists msg. reflexivity.
Qed.

End Model.
End RegressionMore.

Module RegressionData.
Section Data.
Context {F key : Type} `{Scalar F} `{JaxRandom F key} `{JaxMath F}.

(** X11: the data set of the regression script.  Its index points are the
    column of the 25 grid points [-3 + i * ((3 - -3) / 24)] and, for a
    noise array of shape [(25,)], each target is
    [sin(x_i) + true_obs_noise_scale * noise_i]. *)
Theorem regression_dataset (sim_key : key) (true_obs_noise_scale : F) :
  let noise := normal sim_key [25] in
  shape noise = [25] -> length (data noise) = 25 ->
  exists ds,
    Regression.get_datasets sim_key true_obs_noise_scale = Ok ds /\
    shape (Regression.ds_index_points ds) = [25; 1] /\
    shape (Regression.ds_y ds) = [25] /\
    length (data (Regression.ds_y ds)) = 25 /\
    forall i, i < 25 ->
      let x := nth i (data (Regression.ds_index_points ds)) zero in
      x = add (lit (- 3))
              (mul (of_nat i) (div (sub (lit 3) (lit (- 3))) (of_nat 24))) /\
      nth i (data (Regression.ds_y ds)) zero
        = add (sin x) (mul true_obs_noise_scale (nth i (data noise) zero)).
Proof.
  intros noise Hshape Hlen.
  unfold Regression.get_datasets.
  set (pt := fun i => add (lit (- 3))
                        (mul (of_nat i) (div (sub (lit 3) (lit (- 3))) (of_nat 24)))).
  assert (Hlin : Np.linspace (lit (- 3)) (lit 3) 25 = mkArr [25] (map pt (seq 0 25)))
    by reflexivity.
  rewrite Hlin.
  assert (Hcol : Np.index_axis1_0 (Np.expand_last (mkArr [25] (map pt (seq 0 25))))
                 = Ok (mkArr [25] (map pt (seq 0 25)))).
  { reflexivity. }
  rewrite Hcol. cbn [Py.bind].
  change (Np.shape_init (Np.expand_last (mkArr [25] (map pt (seq 0 25))))) with [25].
  fold noise.
  set (sines := map sin (map pt (seq 0 25))).
  set (scaled := map (mul true_obs_noise_scale) (data noise)).
  assert (Hadd : Np.np_add (Np.np_map sin (mkArr [25] (map pt (seq 0 25))))
                   (Np.np_map (mul true_obs_noise_scale) noise)
                 = Ok (mkArr [25] (Np.zip_with add sines scaled))).
  { unfold Np.np_add, Np.broadcast2, Np.np_map. cbn [shape data].
    rewrite Hshape, NpFacts.broadcast_shapes_same, (NpFacts.pad_self [25]).
    rewrite !NpFacts.bcast_id; [reflexivity | |].
    - rewrite length_map, Hlen. reflexivity.
    - now rewrite !length_map, length_seq. }
  rewrite Hadd. cbn [Py.bind].
  eexists. split; [reflexivity |].
  cbn [Regression.ds_index_points Regression.ds_y shape data Np.expand_last app].
  split; [reflexivity |]. split; [reflexivity |].
  assert (Hls : length sines = 25) by (unfold sines; now rewrite !length_map, length_seq).
  assert (Hlc : length scaled = 25) by (unfold scaled; now rewrite length_map).
  split; [rewrite NpFacts.zip_with_length; congruence |].
  intros i Hi.
  assert (Hx : nth i (map pt (seq 0 25)) zero = pt i).
  { rewrite (nth_indep _ zero (pt 0)) by (rewrite length_map, length_seq; exact Hi).
    rewrite (map_nth pt (seq 0 25) 0 i), seq_nth by exact Hi. reflexivity. }
  rewrite Hx. split; [reflexivity |].
  rewrite NpFacts.zip_with_nth by congruence. f_equal.
  - unfold sines.
    rewrite (nth_indep _ zero (sin zero)) by (rewrite !length_map, length_seq; exact Hi).
    rewrite (map_nth sin (map pt (seq 0 25)) zero i). now rewrite Hx.
  - unfold scaled.
    rewrite (nth_indep _ zero (mul true_obs_noise_scale zero))
      by (rewrite length_map, Hlen; exact Hi).
    now rewrite (map_nth (mul true_obs_noise_scale) (data noise) zero i).
Qed.

End Data.
End RegressionData.

(** ** More on basic_dgp.py *)

Module DgpMore.
Section Model.
Context {F key scope kernel inducing : Type}.
Context `{Scalar F} `{JaxNumeric F}.
Context `{FlaxModule F key scope} `{Kernels F key scope kernel}.
Context `{InducingVariables F key scope kernel inducing}.
Context `{GaussianProcesses F key kernel inducing}.

(** X12: [LikelihoodProvider.apply] outside its intended inputs.  A 0-d
    input has no feature axis to read and is refused with [IndexError]; a
    one-axis input of positive length is accepted, and then the mean is
    0-d while the scale has shape [(1,)], the shape of the parameter. *)
Theorem likelihood_provider_edges (self : scope) (x : ndarray F) (p : F) :
  param self "observation_noise_scale" [1] Dgp.observation_noise_scale_init
    = mkArr [1] [p] ->
  (shape x = [] ->
   Dgp.LikelihoodProvider_apply self x
     = Raise (IndexError "too many indices for array")) /\
  (forall d, shape x = [S d] ->
     exists mean scale,
       Dgp.LikelihoodProvider_apply self x = Ok (mkDiag mean scale) /\
       shape mean = [] /\
       shape scale = [1] /\
       data scale = [mul one (softplus p)]).
Proof.
  intros Hp. unfold Dgp.LikelihoodProvider_apply, Np.index_last0. split.
  - intros ->. reflexivity.
  - intros d Hx. rewrite Hx, Hp. cbn [rev app Py.bind removelast].
    unfold Np.shape_init. rewrite Hx. cbn [removelast].
    eexists _, _. split; [reflexivity |]. repeat split.
Qed.

Lemma call_kwargs_clash (explicit extra : kwdict F key) (kv : string * kwval F key) :
  In kv extra -> In (fst kv) (map fst explicit) ->
  exists msg, Dgp.call_kwargs explicit extra = Raise (TypeError msg).
Proof.
  intros Hin Hname. unfold Dgp.call_kwargs.
  destruct (find _ extra) as [kv' |] eqn:Hfind; [eexists; reflexivity |].
  pose proof (find_none _ _ Hfind kv Hin) as Hno. cbn beta in Hno.
  assert (Hyes : existsb (String.eqb (fst kv)) (map fst explicit) = true).
  { apply existsb_exists. exists (fst kv). split; [exact Hname |].
    apply String.eqb_refl. }
  congruence.
Qed.

(** A layer whose keyword dictionary repeats a keyword of the call of
    [InducingPointsProvider] does not get past that call. *)
Lemma layer_body_clash (self : scope) (flags : Dgp.FLAGS F) (sample_key : key)
    (kwargs : list (string * kwdict F key)) (layer : nat) (st : Dgp.loop_state)
    (kv : string * kwval F key) :
  In kv (Dgp.kwargs_get kwargs
           ("inducing_var_" ++ Dgp.format_nat layer ++ "_kwargs")%string) ->
  In (fst kv) ["name"; "num_inducing_points"; "fixed_locations"] ->
  exists e, Dgp.layer_body self flags sample_key kwargs layer st = Raise e.
Proof.
  intros Hin Hname. unfold Dgp.layer_body.
  destruct (Dgp.call_kwargs _ (Dgp.kwargs_get kwargs
              ("kernel_fun_" ++ Dgp.format_nat layer ++ "_kwargs")%string))
    as [kw | e]; cbn [Py.bind]; [| eexists; reflexivity].
  destruct (RBFKernelProvider self (Dgp.loop_x st) kw) as [kf | e];
    cbn [Py.bind]; [| eexists; reflexivity].
  destruct (call_kwargs_clash
              [("name", KwStr ("inducing_var_" ++ Dgp.format_nat layer)%string);
               ("num_inducing_points", KwNat (Dgp.num_inducing_points flags));
               ("fixed_locations", KwBool true)]
              _ kv Hin Hname) as [msg Hmsg].
  rewrite Hmsg. eexists. reflexivity.
Qed.

(** X13: a keyword given twice stops the forward evaluation.  If the
    keyword dictionary of layer 1 or of layer 2 for the inducing points
    names [name], [num_inducing_points] or [fixed_locations], which
    [DeepGPModel.apply] passes itself, the evaluation raises and returns
    nothing. *)
Theorem apply_keyword_clash (self : scope) (flags : Dgp.FLAGS F) (x : ndarray F)
    (sample_key : key) (kwargs : list (string * kwdict F key))
    (layer : nat) (kv : string * kwval F key) :
  layer = 1 \/ layer = 2 ->
  In kv (Dgp.kwargs_get kwargs
           ("inducing_var_" ++ Dgp.format_nat layer ++ "_kwargs")%string) ->
  In (fst kv) ["name"; "num_inducing_points"; "fixed_locations"] ->
  exists e, Dgp.DeepGPModel_apply self flags x sample_key kwargs = Raise e.
Proof.
  intros Hlayer Hin Hname. unfold Dgp.DeepGPModel_apply.
  change (Py.range 1 3) with [1; 2]. cbn [Py.for_each].
  destruct Hlayer as [-> | ->].
  - destruct (layer_body_clash self flags sample_key kwargs 1
                (Dgp.mkLoop x Dgp.initial_mean_fun []) kv Hin Hname) as [e He].
    rewrite He. eexists. reflexivity.
  - destruct (Dgp.layer_body self flags sample_key kwargs 1 _) as [st1 | e];
      cbn [Py.bind]; [| eexists; reflexivity].
    destruct (layer_body_clash self flags sample_key kwargs 2 st1 kv Hin Hname)
      as [e He].
    rewrite He. eexists. reflexivity.
Qed.

(** X14: without extra keywords the forward evaluation returns as soon as
    its collaborators do.  Each provider is then called with the keywords
    that [DeepGPModel.apply] writes out and no other, and the result holds
    the likelihood on the second sample and the two layers under the keys
    1 and 2. *)
Theorem apply_returns (self : scope) (flags : Dgp.FLAGS F) (x : ndarray F)
    (sample_key : key)
    (kf1 kf2 : kernel) (iv1 iv2 : inducing) (m1 m2 : MultivariateNormal F)
    (s1 s2 : ndarray F) (ll : MultivariateNormalDiag F) :
  let v1 := mkSVGP x Dgp.initial_mean_fun kf1 iv1 "vgp_1" in
  let v2 := mkSVGP (Np.expand_last s1) Dgp.later_mean_fun kf2 iv2 "vgp_2" in
  RBFKernelProvider self x [("name", KwStr "kernel_fun_1")] = Ok kf1 ->
  InducingPointsProvider self x kf1
    [("name", KwStr "inducing_var_1");
     ("num_inducing_points", KwNat (Dgp.num_inducing_points flags));
     ("fixed_locations", KwBool true)] = Ok iv1 ->
  marginal v1 = Ok m1 ->
  sample m1 sample_key [17] = Ok s1 ->
  RBFKernelProvider self (Np.expand_last s1) [("name", KwStr "kernel_fun_2")] = Ok kf2 ->
  InducingPointsProvider self (Np.expand_last s1) kf2
    [("name", KwStr "inducing_var_2");
     ("num_inducing_points", KwNat (Dgp.num_inducing_points flags));
     ("fixed_locations", KwBool true)] = Ok iv2 ->
  marginal v2 = Ok m2 ->
  sample m2 sample_key [17] = Ok s2 ->
  Dgp.LikelihoodProvider_apply (child self "loglik") (Np.expand_last s2) = Ok ll ->
  Dgp.DeepGPModel_apply self flags x sample_key [] = Ok (ll, [(1, v1); (2, v2)]).
Proof.
  intros v1 v2 Hkf1 Hiv1 Hm1 Hs1 Hkf2 Hiv2 Hm2 Hs2 Hll.
  unfold Dgp.DeepGPModel_apply.
  change (Py.range 1 3) with [1; 2]. cbn [Py.for_each].
  unfold Dgp.layer_body at 1. cbn [Dgp.loop_x Dgp.loop_mf Dgp.loop_vgps].
  change (Dgp.call_kwargs [("name", KwStr ("kernel_fun_" ++ Dgp.format_nat 1)%string)]
            (Dgp.kwargs_get [] ("kernel_fun_" ++ Dgp.format_nat 1 ++ "_kwargs")%string))
    with (Ok (A := kwdict F key) [("name", KwStr "kernel_fun_1")]).
  cbn [Py.bind]. rewrite Hkf1. cbn [Py.bind].
  change (Dgp.call_kwargs
            [("name", KwStr ("inducing_var_" ++ Dgp.format_nat 1)%string);
             ("num_inducing_points", KwNat (Dgp.num_inducing_points flags));
             ("fixed_locations", KwBool true)]
            (Dgp.kwargs_get [] ("inducing_var_" ++ Dgp.format_nat 1 ++ "_kwargs")%string))
    with (Ok (A := kwdict F key)
            [("name", KwStr "inducing_var_1");
             ("num_inducing_points", KwNat (Dgp.num_inducing_points flags));
             ("fixed_locations", KwBool true)]).
  cbn [Py.bind]. rewrite Hiv1. cbn [Py.bind].
  change ("vgp_" ++ Dgp.format_nat 1)%string with "vgp_1".
  fold v1. rewrite Hm1. cbn [Py.bind].
  change Dgp.sample_shape with [17]. rewrite Hs1. cbn [Py.bind].
  unfold Dgp.layer_body. cbn [Dgp.loop_x Dgp.loop_mf Dgp.loop_vgps].
  change (Dgp.call_kwargs [("name", KwStr ("kernel_fun_" ++ Dgp.format_nat 2)%string)]
            (Dgp.kwargs_get [] ("kernel_fun_" ++ Dgp.format_nat 2 ++ "_kwargs")%string))
    with (Ok (A := kwdict F key) [("name", KwStr "kernel_fun_2")]).
  cbn [Py.bind]. rewrite Hkf2. cbn [Py.bind].
  change (Dgp.call_kwargs
            [("name", KwStr ("inducing_var_" ++ Dgp.format_nat 2)%string);
             ("num_inducing_points", KwNat (Dgp.num_inducing_points flags));
             ("fixed_locations", KwBool true)]
            (Dgp.kwargs_get [] ("inducing_var_" ++ Dgp.format_nat 2 ++ "_kwargs")%string))
    with (Ok (A := kwdict F key)
            [("name", KwStr "inducing_var_2");
             ("num_inducing_points", KwNat (Dgp.num_inducing_points flags));
             ("fixed_locations", KwBool true)]).
  cbn [Py.bind]. rewrite Hiv2. cbn [Py.bind].
  change ("vgp_" ++ Dgp.format_nat 2)%string with "vgp_2".
  fold v2. rewrite Hm2. cbn [Py.bind].
  change Dgp.sample_shape with [17]. rewrite Hs2. cbn [Py.bind Dgp.loop_x Dgp.loop_vgps].
  rewrite Hll. reflexivity.
Qed.

End Model.

Section Train.
Context {F key scope kernel inducing frame optimizer grads : Type}.
Context `{Scalar F} `{JaxNumeric F} `{JaxRandom F key}.
Context `{FlaxModule F key scope} `{Kernels F key scope kernel}.
Context `{InducingVariables F key scope kernel inducing}.
Context `{GaussianProcesses F key kernel inducing}.
Context `{FlaxStochastic F key scope frame}.
Context `{Training F scope optimizer grads}.
Variable flags : Dgp.FLAGS F.

Lemma run_epochs_lines (train_ds : Dgp.dataset F) (k0 : key) (len : nat) :
  forall a opt opt' lines,
    Dgp.run_epochs flags train_ds k0 a len opt = Ok (opt', lines) ->
    map fst lines = seq (S a) len.
Proof.
  induction len as [| len IH]; intros a opt opt' lines Hrun; cbn [Dgp.run_epochs] in Hrun.
  - injection Hrun as _ <-. reflexivity.
  - bind_inv Hrun as step Hstep. destruct step as [opt1 loss].
    bind_inv Hrun as rest Hrest. destruct rest as [opt2 lines2].
    injection Hrun as _ <-. cbn [map fst seq].
    now rewrite (IH _ _ _ _ Hrest).
Qed.

(** X15: what the epoch loop of [train] leaves behind when it returns.
    After [n] epochs the loop has appended exactly [n] lines to the log,
    numbered 1 to [n] in order, the frame stack is as it was, and the key
    it carries is the key of epoch [n]. *)
Theorem epoch_loop_lines (train_ds : Dgp.dataset F) (n : nat)
    (opt opt' : optimizer) (k0 k' : key) (w w' : Dgp.world F frame) :
  Dgp.for_eachM (Py.range 1 (n + 1)) (Dgp.epoch_body flags train_ds) (opt, k0) w
    = Ok ((opt', k'), w') ->
  Dgp.prng_stack w' = Dgp.prng_stack w /\
  k' = Dgp.epoch_key k0 n /\
  exists lines,
    Dgp.log w' = Dgp.log w ++ lines /\
    map fst lines = seq 1 n.
Proof.
  unfold Py.range. rewrite Nat.add_sub.
  change k0 with (Dgp.epoch_key k0 0) at 1.
  rewrite DgpFacts.epoch_loop_closed. intros Hrun.
  bind_inv Hrun as r Hr. destruct r as [opt1 lines].
  injection Hrun as _ <- <-. cbn [Dgp.prng_stack Dgp.log fst snd].
  split; [reflexivity |]. split; [reflexivity |].
  exists lines. split; [reflexivity |].
  apply (run_epochs_lines train_ds k0 n 0 opt opt1 lines Hr).
Qed.

(** X16: the loss that [train_step] reports is the loss before the step.
    With a [value_and_grad] that returns the value of the function it
    differentiates, the reported loss is [loss_fn] at the parameters the
    optimizer held when the step began, and the new optimizer is the old
    one after one [apply_gradient]. *)
Theorem train_step_reports_loss (opt opt' : optimizer) (batch : Dgp.dataset F)
    (sample_key : key) (loss : ndarray F) :
  (forall f m v g, value_and_grad f m = Ok (v, g) -> f m = Ok v) ->
  Dgp.train_step flags opt batch sample_key = Ok (opt', loss) ->
  Dgp.loss_fn flags batch sample_key (target opt) = Ok loss /\
  exists grad, opt' = apply_gradient opt grad.
Proof.
  intros Hlaw Hrun. unfold Dgp.train_step in Hrun.
  bind_inv Hrun as vg Hvg. destruct vg as [v g].
  injection Hrun as <- <-.
  split; [exact (Hlaw _ _ _ _ Hvg) | exists g; reflexivity].
Qed.


Lemma init_apply_raises (sample_key : key) (self : scope) (inputs : list (ndarray F)) :
  exists e,
    Dgp.init_apply flags sample_key (Dgp.create_model_kwargs flags) self inputs
    = Raise e.
Proof.
  unfold Dgp.init_apply.
  destruct inputs as [| x [| y inputs]]; try (eexists; reflexivity).
  destruct (DgpFacts.apply_with_create_model_kwargs self flags x sample_key)
    as [Hraise | [e [kw [_ Hraise]]]]; cbv zeta in Hraise;
    rewrite Hraise; eexists; reflexivity.
Qed.

(** X18: [train] stops at the creation of the model.  [create_model]
    fills the keyword dictionary of each layer with [fixed_locations],
    which [DeepGPModel.apply] also passes itself, so the forward
    evaluation that initialises the parameters raises; when
    [init_by_shape] returns only outputs that the module's [apply] has
    produced, [train] raises on every data set and from every process
    state. *)
Theorem train_fails_at_model_creation (train_ds : Dgp.dataset F)
    (w : Dgp.world F frame) :
  (forall (apply : scope -> list (ndarray F) ->
                   result (MultivariateNormalDiag F * list (nat * SVGP F kernel inducing)))
          rng specs r,
      init_by_shape apply rng specs = Ok r ->
      exists self inputs, apply self inputs = Ok (fst r)) ->
  exists e, Dgp.train flags train_ds w = Raise e.
Proof.
  intros Hinit. rewrite DgpFacts.train_closed_form. unfold Dgp.train_closed.
  destruct (init_by_shape _ _ _) as [r | e] eqn:Hr; cbn [Py.bind];
    [| eexists; reflexivity].
  destruct (Hinit _ _ _ _ Hr) as [self [inputs Hok]].
  destruct (init_apply_raises (fst (frame_make_rng (new_frame (PRNGKey 1))))
              self inputs) as [e He].
  rewrite He in Hok. discriminate Hok.
Qed.


End Train.
End DgpMore.

(** ** More concrete runs *)

Module MoreRuns.
#[local] Existing Instances Exact.scalar Toy.numeric Toy.random Toy.format.
#[local] Existing Instances Toy.flax_module Toy.kernels Toy.inducing_variables.
#[local] Existing Instances Toy.gaussian_processes Toy.flax_stochastic Toy.training.
#[local] Existing Instances Toy.tree Toy.math.

Lemma Qmult_comm_eq (a b : Q) : Qmult a b = Qmult b a.
Proof.
  destruct a as [an ad], b as [bn bd]. unfold Qmult. cbn [Qnum Qden].
  now rewrite Z.mul_comm, Pos.mul_comm.
Qed.

Lemma toy_tree_rebuild (q : list (string * ndarray Q)) :
  tree_unflatten (snd (tree_flatten q)) (fst (tree_flatten q)) = q.
Proof.
  cbn [tree_flatten tree_unflatten Toy.tree fst snd].
  induction q as [| [k a] q IH]; cbn [map combine fst snd]; [reflexivity |].
  now rewrite IH.
Qed.

Lemma diag_shift_rank_errors_run :
  Regression._diag_shift (Np.scalar 3%Q) (Np.scalar 1%Q)
    = Raise (IndexError "tuple index out of range") /\
  Regression._diag_shift (mkArr [1; 1; 1] [3%Q]) (Np.scalar 1%Q)
    = Raise (ValueError "diag input must be 1d or 2d").
Proof.
  split.
  - apply (proj1 (RegressionMore.diag_shift_rank_errors (Np.scalar 3%Q) (Np.scalar 1%Q))).
    reflexivity.
  - apply (proj2 (RegressionMore.diag_shift_rank_errors
                    (mkArr [1; 1; 1] [3%Q]) (Np.scalar 1%Q))).
    cbn. lia.
Defined.

Lemma diag_shift_twice_run :
  exists m2,
    (m1 <- Regression._diag_shift Toy.mat22 (Np.scalar (1 # 2)%Q) ;;
     Regression._diag_shift m1 (Np.scalar (1 # 4)%Q)) = Ok m2 /\
    Np.get2 m2 1 1 = (4 + (1 # 2) + (1 # 4))%Q /\
    Np.get2 m2 1 0 = 3%Q.
Proof.
  destruct (RegressionMore.diag_shift_twice Toy.mat22 2 (1 # 2)%Q (1 # 4)%Q)
    as [m2 [Hrun [_ Hcells]]]; [reflexivity | reflexivity |].
  exists m2. split; [exact Hrun |]. split.
  - rewrite Hcells by lia. reflexivity.
  - rewrite Hcells by lia. reflexivity.
Defined.

Lemma marginal_covariance_symmetric_run :
  exists C,
    Regression.MarginalObservationModel_apply tt
      (mkTriL (mkArr [2] [0%Q; 0%Q]) Toy.mat22)
      = Ok (mkFull (mkArr [2] [0%Q; 0%Q]) C) /\
    Np.get2 C 0 1 = Np.get2 C 1 0.
Proof.
  destruct (RegressionMore.marginal_covariance_symmetric tt
              (mkTriL (mkArr [2] [0%Q; 0%Q]) Toy.mat22) 2 1%Q)
    as [C [Hrun Hsym]];
    [exact Qmult_comm_eq | reflexivity | reflexivity | reflexivity |].
  exists C. split; [exact Hrun |]. apply Hsym; lia.
Defined.

Lemma gp_model_composition_run :
  exists C,
    Regression.GPModel_apply tt (mkArr [2; 1] [1%Q; 2%Q])
      = Ok (mkFull (mkArr [2] [0%Q; 0%Q]) C) /\
    shape C = [2; 2].
Proof.
  destruct (RegressionMore.gp_model_composition tt (mkArr [2; 1] [1%Q; 2%Q])
              (Np.ones [2; 2]) tt 2 1%Q)
    as [K' [C [_ [Hrun [HsC _]]]]];
    [intros a; split; reflexivity | reflexivity | reflexivity | reflexivity
    | reflexivity | reflexivity |].
  exists C. split; [exact Hrun | exact HsC].
Defined.

Lemma mean_shift_broadcast_error_run :
  exists msg,
    Regression.MeanShiftDistribution_apply Toy.obj_normal (mkArr [3] [1%Q; 1%Q; 1%Q])
    = Raise (ShapeError msg).
Proof.
  destruct (RegressionMore.mean_shift_broadcast_error Toy.obj_normal
              (mkArr [3] [1%Q; 1%Q; 1%Q]) (mkArr [2] [1%Q; 2%Q])
              (ShapeError "operands could not be broadcast together"))
    as [Hrun _]; [reflexivity | reflexivity | reflexivity |].
  eexists. exact Hrun.
Defined.

Lemma mean_shift_again_run :
  exists p' p'',
    Regression.MeanShiftDistribution_apply Toy.obj_normal (Np.scalar 1%Q) = Ok p' /\
    map fst (fields p') = ["mean"; "scale"] /\
    Regression.MeanShiftDistribution_apply p' (Np.scalar 1%Q) = Ok p''.
Proof.
  destruct (Regression.MeanShiftDistribution_apply Toy.obj_normal (Np.scalar 1%Q))
    as [p' | e] eqn:Hrun; [| vm_compute in Hrun; discriminate Hrun].
  destruct (RegressionMore.mean_shift_again Toy.obj_normal p' (Np.scalar 1%Q) Hrun)
    as [_ [Hnames Hnext]].
  destruct (Hnext (Np.scalar 1%Q)) as [[p'' Hp''] | [msg Hmsg]].
  - exists p', p''. split; [reflexivity |]. split; [exact Hnames | exact Hp''].
  - vm_compute in Hrun. injection Hrun as <-. vm_compute in Hmsg. discriminate Hmsg.
Defined.

Lemma pack_then_unpack_run :
  exists arr,
    snd (Regression.build_par_pack_and_unpack Toy.two_params) Toy.two_params = Ok arr /\
    shape arr = [5] /\
    fst (Regression.build_par_pack_and_unpack Toy.two_params) arr = Ok Toy.two_params.
Proof.
  destruct (PackingFacts.pack_then_unpack Toy.two_params Toy.two_params)
    as [arr [Hpack [Hshape [_ Hunpack]]]];
    [exact toy_tree_rebuild | reflexivity | reflexivity
    | repeat constructor | discriminate |].
  exists arr. split; [exact Hpack |]. split; [exact Hshape | exact Hunpack].
Defined.

Lemma unpack_then_pack_run :
  exists prm,
    fst (Regression.build_par_pack_and_unpack Toy.two_params)
      (mkArr [5] [9%Q; 8%Q; 7%Q; 6%Q; 5%Q]) = Ok prm /\
    snd (Regression.build_par_pack_and_unpack Toy.two_params) prm
      = Ok (mkArr [5] [9%Q; 8%Q; 7%Q; 6%Q; 5%Q]).
Proof.
  apply (PackingFacts.unpack_then_pack Toy.two_params
           (mkArr [5] [9%Q; 8%Q; 7%Q; 6%Q; 5%Q])).
  - intros ls Hls. destruct ls as [| a [| b [| c ls]]]; try discriminate Hls.
    reflexivity.
  - discriminate.
  - reflexivity.
  - reflexivity.
Defined.

Lemma unpack_ignores_tail_run :
  exists prm,
    fst (Regression.build_par_pack_and_unpack Toy.two_params)
      (Np.vec [9%Q; 8%Q; 7%Q; 6%Q; 5%Q]) = Ok prm /\
    fst (Regression.build_par_pack_and_unpack Toy.two_params)
      (Np.vec ([9%Q; 8%Q; 7%Q; 6%Q; 5%Q] ++ [4%Q; 3%Q])) = Ok prm.
Proof.
  apply (PackingFacts.unpack_ignores_tail Toy.two_params
           [9%Q; 8%Q; 7%Q; 6%Q; 5%Q] [4%Q; 3%Q]).
  reflexivity.
Defined.

Lemma pack_unpack_failures_run :
  (exists e,
      fst (Regression.build_par_pack_and_unpack Toy.two_params)
        (mkArr [4] [9%Q; 8%Q; 7%Q; 6%Q]) = Raise e) /\
  snd (Regression.build_par_pack_and_unpack Toy.two_params) []
    = Raise (ValueError "need at least one array to concatenate").
Proof.
  split.
  - apply (proj1 (PackingFacts.pack_unpack_failures Toy.two_params)
             (mkArr [4] [9%Q; 8%Q; 7%Q; 6%Q]) 4);
      [discriminate | reflexivity | cbn; lia].
  - apply (proj2 (PackingFacts.pack_unpack_failures Toy.two_params) []).
    reflexivity.
Defined.

Lemma regression_dataset_run :
  exists ds,
    Regression.get_datasets 123 (5 # 10)%Q = Ok ds /\
    shape (Regression.ds_index_points ds) = [25; 1] /\
    length (data (Regression.ds_y ds)) = 25.
Proof.
  destruct (RegressionData.regression_dataset (key := nat) 123 (5 # 10)%Q)
    as [ds [Hrun [Hs [_ [Hlen _]]]]]; [reflexivity | reflexivity |].
  exists ds. split; [exact Hrun |]. split; [exact Hs | exact Hlen].
Defined.

Lemma likelihood_provider_edges_run :
  Dgp.LikelihoodProvider_apply tt (Np.scalar 5%Q)
    = Raise (IndexError "too many indices for array") /\
  exists mean scale,
    Dgp.LikelihoodProvider_apply tt (mkArr [2] [5%Q; 7%Q]) = Ok (mkDiag mean scale) /\
    shape mean = [] /\ shape scale = [1].
Proof.
  split.
  - destruct (DgpMore.likelihood_provider_edges tt (Np.scalar 5%Q) (1 # 100)%Q)
      as [Hscalar _]; [reflexivity |].
    apply Hscalar. reflexivity.
  - destruct (DgpMore.likelihood_provider_edges tt (mkArr [2] [5%Q; 7%Q]) (1 # 100)%Q)
      as [_ Hvector]; [reflexivity |].
    destruct (Hvector 1 eq_refl) as [mean [scale [Hrun [Hm [Hs _]]]]].
    exists mean, scale. split; [exact Hrun |]. split; [exact Hm | exact Hs].
Defined.

Lemma apply_keyword_clash_run :
  exists e,
    Dgp.DeepGPModel_apply tt Toy.flags (Dgp.ds_index_points Toy.batch) 5
      (Dgp.create_model_kwargs Toy.flags) = Raise e.
Proof.
  apply (DgpMore.apply_keyword_clash tt Toy.flags (Dgp.ds_index_points Toy.batch) 5
           (Dgp.create_model_kwargs Toy.flags) 1 ("fixed_locations", KwBool true)).
  - left. reflexivity.
  - left. reflexivity.
  - right. right. left. reflexivity.
Defined.

Lemma apply_returns_run :
  exists ll vgps,
    Dgp.DeepGPModel_apply tt Toy.flags (Dgp.ds_index_points Toy.batch) 5 []
      = Ok (ll, vgps) /\
    map fst vgps = [1; 2].
Proof.
  eexists _, _. split.
  - eapply (DgpMore.apply_returns tt Toy.flags (Dgp.ds_index_points Toy.batch) 5);
      reflexivity.
  - reflexivity.
Defined.

Lemma epoch_loop_lines_run :
  exists w' st lines,
    Dgp.for_eachM (Py.range 1 (3 + 1)) (Dgp.epoch_body Toy.flags Toy.batch) (tt, 7)
      (Dgp.mkWorld (frame := nat * nat) [] []) = Ok (st, w') /\
    Dgp.log w' = lines /\ map fst lines = [1; 2; 3].
Proof.
  destruct (Dgp.for_eachM (Py.range 1 (3 + 1)) (Dgp.epoch_body Toy.flags Toy.batch)
              (tt, 7) (Dgp.mkWorld (frame := nat * nat) [] []))
    as [[[opt' k'] w'] | e] eqn:Hrun; [| vm_compute in Hrun; discriminate Hrun].
  destruct (DgpMore.epoch_loop_lines Toy.flags Toy.batch 3 tt opt' 7 k'
              (Dgp.mkWorld [] []) w' Hrun) as [_ [_ [lines [Hlog Hnum]]]].
  exists w', (opt', k'), lines. split; [reflexivity |]. split; [exact Hlog | exact Hnum].
Defined.

Lemma train_step_reports_loss_run :
  exists opt' loss,
    Dgp.train_step Toy.flags tt Toy.batch 5 = Ok (opt', loss) /\
    Dgp.loss_fn Toy.flags Toy.batch 5 tt = Ok loss.
Proof.
  destruct (Dgp.train_step Toy.flags tt Toy.batch 5) as [[opt' loss] | e] eqn:Hrun;
    [| vm_compute in Hrun; discriminate Hrun].
  destruct (DgpMore.train_step_reports_loss Toy.flags tt opt' Toy.batch 5 loss)
    as [Hloss _].
  - intros f m v g Hvg. cbn [value_and_grad Toy.training] in Hvg.
    destruct (f m) as [v0 | e]; cbn [Py.bind] in Hvg; [| discriminate Hvg].
    now injection Hvg as <- _.
  - exact Hrun.
  - exists opt', loss. split; [reflexivity | exact Hloss].
Defined.

Lemma train_fails_at_model_creation_run :
  exists e,
    Dgp.train Toy.flags Toy.batch (Dgp.mkWorld (frame := nat * nat) [] []) = Raise e.
Proof.
  apply (DgpMore.train_fails_at_model_creation Toy.flags Toy.batch).
  intros apply rng specs r Hr. cbn [init_by_shape Toy.flax_stochastic] in Hr.
  exists tt, (map (fun sh => Np.zeros sh) specs).
  destruct (apply tt (map (fun sh => Np.zeros sh) specs)) as [o | e];
    cbn [Py.bind] in Hr; [| discriminate Hr].
  now injection Hr as <-.
Defined.


End MoreRuns.
